(** * Attend, Infer, Repeat: the recurrent cell and the training objective

    A shallow embedding of [attend_infer_repeat/cell.py], [modules.py] and
    [model.py].  Tensors of 32-bit floats are read as lists of real numbers:
    a [(batch, n)] tensor is a list of rows, a [(batch, 1)] tensor a list of
    scalars, and a reshape, which keeps the entries and their order, is the
    identity.  Elementwise operations pair the entries of tensors of equal
    shape; on lists of different lengths [zipWith] stops at the shorter one.
    Every statement below is about the forward values of the graph;
    [stop_gradient] is therefore the identity.  Sub-networks are fields of the
    cell, as they are attributes of the Python object; random draws are read
    from an explicit noise argument.  The checks of debug mode
    ([validate_args]) test for NaN, for a positive scale and for a probability
    in [0, 1]; over the reals none of them fires while the exploration floor
    is at most 1, and they are left out.  Where the rounding of 32-bit floats
    decides a statement, as for the straight-through clipping of the presence
    probability, the operation is modelled once more over binary32 numbers
    (module [Float32]). *)

From Stdlib Require Import Reals Lra Lia List Bool.
From Stdlib Require String SpecFloat.
Import ListNotations.
Open Scope R_scope.

(** ** Tensor operations *)

Module Tf.

Definition vec := list R.
Definition tensor2 := list vec.
Definition tensor3 := list tensor2.

Fixpoint zipWith {A B C : Type} (f : A -> B -> C) (xs : list A) (ys : list B)
  : list C :=
  match xs, ys with
  | x :: xs', y :: ys' => f x y :: zipWith f xs' ys'
  | _, _ => []
  end.

(** [tf.nn.sigmoid] *)
Definition sigmoid (x : R) : R := 1 / (1 + exp (- x)).

(** [tf.nn.softplus] *)
Definition softplus (x : R) : R := ln (1 + exp x).

(** [tf.clip_by_value]: the minimum with the upper bound is taken first, then
    the maximum with the lower bound. *)
Definition clip_by_value (t lo hi : R) : R := Rmax (Rmin t hi) lo.

(** [tf.stop_gradient], forward value. *)
Definition stop_gradient (x : R) : R := x.

Definition reduce_sum (v : vec) : R := fold_right Rplus 0 v.

Definition reduce_mean (v : vec) : R := reduce_sum v / INR (length v).

(** [tf.reduce_sum(t, 0)] of a [(steps, batch)] tensor. *)
Definition reduce_sum_axis0 (t : tensor2) : vec :=
  match t with
  | [] => []
  | r :: rs => fold_left (zipWith Rplus) rs r
  end.

(** [tf.concat(..., -1)] of two [(batch, _)] tensors. *)
Definition concat2 (a b : tensor2) : tensor2 := zipWith (@app R) a b.

(** [tf.tile(row, (batch_size, 1))] of a [(1, n)] tensor. *)
Definition tile (batch_size : nat) (row : vec) : tensor2 := repeat row batch_size.

(** [tf.split(t, 2, last_axis)] of one row. *)
Definition split2 (row : vec) : vec * vec :=
  let h := Nat.div (length row) 2 in (firstn h row, skipn h row).

(** A [(batch, 1)] tensor times a [(batch, n)] tensor (broadcast). *)
Definition scale_rows (p : vec) (t : tensor2) : tensor2 :=
  zipWith (fun pi row => map (Rmult pi) row) p t.

Definition add2 (a b : tensor2) : tensor2 := zipWith (zipWith Rplus) a b.

(** [a - b] for [a] of shape [(batch,)] and [b] of shape [(batch, 1)], the
    latter held as the list of its entries: the two are broadcast to the shape
    [(batch, batch)], and the entry in row [i] and column [j] is
    [a_j - b_i]. *)
Definition sub_column (a b : vec) : tensor2 :=
  map (fun bi => map (fun aj => aj - bi) a) b.

(** [t * v] for [t] of shape [(batch, batch)] and [v] of shape [(batch,)]:
    [v] is broadcast along the rows, the entry in row [i] and column [j] is
    [t_ij * v_j]. *)
Definition mul_rows (t : tensor2) (v : vec) : tensor2 :=
  map (fun row => zipWith Rmult row v) t.

(** [tf.reduce_mean] of a tensor of rank 2: the mean of all its entries. *)
Definition reduce_mean2 (t : tensor2) : R := reduce_mean (concat t).

End Tf.

Import Tf.

(** ** Distributions of [tensorflow.contrib.distributions] *)

Module Distributions.

(** [Normal(loc, scale)], one coordinate. *)
Record Normal := { loc : R; scale : R }.

(** [Normal.sample]: the reparameterised draw [noise * scale + loc]. *)
Definition normal_sample (d : Normal) (noise : R) : R :=
  noise * scale d + loc d.

(** [Normal.log_prob]. *)
Definition normal_log_prob (d : Normal) (x : R) : R :=
  - (1 / 2) * Rsqr ((x - loc d) / scale d)
  - ((1 / 2) * ln (2 * PI) + ln (scale d)).

(** [kl(Normal a, Normal b)]. *)
Definition kl_normal (a b : Normal) : R :=
  let ratio := Rsqr (scale a) / Rsqr (scale b) in
  Rsqr (loc a - loc b) / (2 * Rsqr (scale b))
  + (1 / 2) * (ratio - 1 - ln ratio).

(** [NormalWithSoftplusScale(loc, scale)]. *)
Definition NormalWithSoftplusScale (l s : R) : Normal :=
  {| loc := l; scale := softplus s |}.

(** [Bernoulli(probs).sample()] with [dtype=tf.float32]: a uniform draw is
    compared with the probability and the truth value cast to a float. *)
Definition bernoulli_sample (u p : R) : R :=
  if Rlt_dec u p then 1 else 0.

End Distributions.

Import Distributions.

(** ** Sub-network modules ([modules.py]) *)

Module Modules.

(** [StepsPredictor]: [mlp] stands for [MLP(n_hidden, n_out=1)], whose
    [(batch, 1)] output is the logit. *)
Record StepsPredictor := {
  sp_mlp : tensor2 -> vec;
  _steps_bias : R
}.

Definition StepsPredictor_build (sp : StepsPredictor) (inpt : tensor2) : vec :=
  let logit := map (fun l => l + _steps_bias sp) (sp_mlp sp inpt) in
  map sigmoid logit.

(** [ParametrisedGaussian]: [pg_transform] stands for
    [snt.Linear(2 * n_params)]. *)
Record ParametrisedGaussian := {
  _n_params : nat;
  _scale_offset : R;
  pg_transform : tensor2 -> tensor2
}.

Definition ParametrisedGaussian_build (pg : ParametrisedGaussian)
  (inpt : tensor2) : list (list Normal) :=
  let params := pg_transform pg inpt in
  map (fun row =>
         let '(l, s) := split2 row in
         zipWith (fun li si => NormalWithSoftplusScale li (si + _scale_offset pg))
                 l s)
      params.

End Modules.

Import Modules.

(** ** The recurrent cell ([cell.py]) *)

Module Cell.

(** What construction of an object yields: the object, or a configuration
    error raised by the constructor. *)
Inductive construction (A : Type) : Type :=
| Built (a : A)
| ConfigError.

Arguments Built {A} a.
Arguments ConfigError {A}.

Section WithHidden.

(** State of the transition RNN. *)
Variable Hidden : Type.

(** The callables passed to [AIRCell.__init__]. *)
Record Callables := {
  transition : tensor2 -> Hidden -> tensor2 * Hidden;
  transition_initial_state : nat -> Hidden;
  transition_output_size : nat;
  input_encoder : unit -> tensor2 -> tensor2;
  glimpse_encoder : unit -> tensor2 -> tensor2;
  glimpse_decoder : list nat -> tensor2 -> tensor2;
  transform_estimator : nat -> tensor2 -> tensor2 * tensor2;
  steps_predictor : unit -> StepsPredictor
}.

(** The modules and variables the cell creates in its own variable scope:
    the two [SpatialTransformer]s, the [Affine] projection, the [snt.Linear] of
    the what-distribution and the initial codes. *)
Record Created := {
  new_spatial_transformer : tensor2 -> tensor2 -> tensor2;
  new_inverse_transformer : tensor2 -> tensor2 -> tensor2;
  new_rnn_projection : tensor2 -> tensor2;
  new_what_transform : tensor2 -> tensor2;
  where_init : vec;
  what_init : vec
}.

Record AIRCell := {
  _img_size : list nat;
  _n_pix : nat;
  _crop_size : list nat;
  _n_appearance : nat;
  _transition : tensor2 -> Hidden -> tensor2 * Hidden;
  _transition_initial_state : nat -> Hidden;
  _n_hidden : nat;
  _sample_presence : bool;
  _explore_eps : option R;
  _debug : bool;
  _canvas : vec;
  _spatial_transformer : tensor2 -> tensor2 -> tensor2;
  _inverse_transformer : tensor2 -> tensor2 -> tensor2;
  _transform_estimator : tensor2 -> tensor2 * tensor2;
  _input_encoder : tensor2 -> tensor2;
  _glimpse_encoder : tensor2 -> tensor2;
  _glimpse_decoder : tensor2 -> tensor2;
  _what_distrib : ParametrisedGaussian;
  _steps_predictor : StepsPredictor;
  _rnn_projection : tensor2 -> tensor2;
  _where_init : vec;
  _what_init : vec
}.

Definition _n_transform_param : nat := 4.

Definition np_prod (shape : list nat) : nat := fold_right Nat.mul 1%nat shape.

(** [AIRCell.__init__] *)
Definition AIRCell_init (img_size crop_size : list nat) (n_appearance : nat)
  (f : Callables) (mk : Created)
  (discrete_steps : bool) (canvas_init : option R) (explore_eps : option R)
  (debug : bool) : construction AIRCell :=
  let n_pix := np_prod img_size in
  let canvas := repeat 0 n_pix in
  let canvas :=
    match canvas_init with
    | Some canvas_value => map (fun c => c + canvas_value) canvas
    | None => canvas
    end in
  Built {|
    _img_size := img_size;
    _n_pix := n_pix;
    _crop_size := crop_size;
    _n_appearance := n_appearance;
    _transition := transition f;
    _transition_initial_state := transition_initial_state f;
    _n_hidden := transition_output_size f;
    _sample_presence := discrete_steps;
    _explore_eps := explore_eps;
    _debug := debug;
    _canvas := canvas;
    _spatial_transformer := new_spatial_transformer mk;
    _inverse_transformer := new_inverse_transformer mk;
    _transform_estimator := transform_estimator f _n_transform_param;
    _input_encoder := input_encoder f tt;
    _glimpse_encoder := glimpse_encoder f tt;
    _glimpse_decoder := glimpse_decoder f crop_size;
    _what_distrib := {| _n_params := n_appearance; _scale_offset := -1;
                        pg_transform := new_what_transform mk |};
    _steps_predictor := steps_predictor f tt;
    _rnn_projection := new_rnn_projection mk;
    _where_init := where_init mk;
    _what_init := what_init mk
  |}.

(** The carried state, in the order of [state_size]. *)
Record State := {
  st_image : tensor2;
  st_canvas : tensor2;
  st_what : tensor2;
  st_where : tensor2;
  st_hidden : Hidden;
  st_presence : vec
}.

(** The per-step output, in the order of [output_names]. *)
Record Output := {
  canvas : tensor2;
  glimpse : tensor2;
  what : tensor2;
  what_loc : tensor2;
  what_scale : tensor2;
  where_ : tensor2;
  where_loc : tensor2;
  where_scale : tensor2;
  presence_prob : vec;
  presence : vec
}.

(** The random draws of one step: standard normal noise for the two Gaussian
    samples and uniform noise for the Bernoulli sample. *)
Record Noise := {
  eps_where : tensor2;
  u_presence : vec;
  eps_what : tensor2
}.

Definition sample2 (d : list (list Normal)) (noise : tensor2) : tensor2 :=
  zipWith (zipWith normal_sample) d noise.

(** [AIRCell.initial_state] *)
Definition initial_state (cell : AIRCell) (img : tensor2) : State :=
  let batch_size := length img in
  let hidden_state := _transition_initial_state cell batch_size in
  let where_code := tile batch_size (_where_init cell) in
  let what_code := tile batch_size (_what_init cell) in
  let flat_canvas := tile batch_size (_canvas cell) in
  let flat_img := img in
  let init_presence := repeat 1 batch_size in
  {| st_image := flat_img; st_canvas := flat_canvas;
     st_what := what_code; st_where := where_code;
     st_hidden := hidden_state; st_presence := init_presence |}.

(** The straight-through clipping of lines 145-147. *)
Definition explore_clip (explore_eps : option R) (presence_prob : R) : R :=
  match explore_eps with
  | Some eps =>
      let clipped_prob := clip_by_value presence_prob eps (1 - eps) in
      stop_gradient (clipped_prob - presence_prob) + presence_prob
  | None => presence_prob
  end.

(** [AIRCell._build]; [inpt] is unused. *)
Definition _build (cell : AIRCell) (noise : Noise) (inpt : vec) (state : State)
  : Output * State :=
  let img_flat := st_image state in
  let canvas_flat := st_canvas state in
  let what_code := st_what state in
  let where_code := st_where state in
  let hidden_state := st_hidden state in
  let presence := st_presence state in
  let img := img_flat in
  let inpt_encoding := _input_encoder cell img in
  let rnn_inpt :=
    concat2 (concat2 (concat2 inpt_encoding what_code) where_code)
            (map (fun p => [p]) presence) in
  let rnn_inpt := _rnn_projection cell rnn_inpt in
  let '(hidden_output, hidden_state) := _transition cell rnn_inpt hidden_state in
  let where_param := _transform_estimator cell hidden_output in
  let where_distrib :=
    zipWith (zipWith NormalWithSoftplusScale) (fst where_param) (snd where_param) in
  let where_loc := map (map loc) where_distrib in
  let where_scale := map (map scale) where_distrib in
  let where_code := sample2 where_distrib (eps_where noise) in
  let cropped := _spatial_transformer cell img where_code in
  let presence_prob := StepsPredictor_build (_steps_predictor cell) hidden_output in
  let presence_prob := map (explore_clip (_explore_eps cell)) presence_prob in
  let presence :=
    if _sample_presence cell then
      let new_presence := zipWith bernoulli_sample (u_presence noise) presence_prob in
      zipWith Rmult presence new_presence
    else presence_prob in
  let what_params := _glimpse_encoder cell cropped in
  let what_distrib := ParametrisedGaussian_build (_what_distrib cell) what_params in
  let what_loc := map (map loc) what_distrib in
  let what_scale := map (map scale) what_distrib in
  let what_code := sample2 what_distrib (eps_what noise) in
  let decoded :=
    _glimpse_decoder cell
      (concat2 what_code (map (map stop_gradient) where_code)) in
  let inversed := _inverse_transformer cell decoded where_code in
  let inversed_flat := inversed in
  let canvas_flat := add2 canvas_flat (scale_rows presence inversed_flat) in
  let decoded_flat := decoded in
  ({| canvas := canvas_flat; glimpse := decoded_flat;
      what := what_code; what_loc := what_loc; what_scale := what_scale;
      where_ := where_code; where_loc := where_loc; where_scale := where_scale;
      presence_prob := presence_prob; presence := presence |},
   {| st_image := img_flat; st_canvas := canvas_flat;
      st_what := what_code; st_where := where_code;
      st_hidden := hidden_state; st_presence := presence |}).

(** [tf.nn.dynamic_rnn(cell, inputs, initial_state, time_major=True)]: the cell
    is applied once per entry of the input sequence; [noise t] holds the draws
    of step [t]. *)
Fixpoint dynamic_rnn (cell : AIRCell) (noise : nat -> Noise) (t : nat)
  (inputs : list vec) (state : State) : list Output * State :=
  match inputs with
  | [] => ([], state)
  | x :: xs =>
      let '(o, state') := _build cell (noise t) x state in
      let '(os, final) := dynamic_rnn cell noise (S t) xs state' in
      (o :: os, final)
  end.

End WithHidden.

Arguments Built {A} a.
Arguments ConfigError {A}.

End Cell.

Import Cell.

(** ** The clipping of the presence probability in binary32

    The tensors of the cell have the type [tf.float32], and so has the
    variable [explore_eps] that [AIRModel._build] creates.  Lines 145-147 of
    [cell.py] are modelled here over IEEE 754 binary32 numbers: precision 24,
    infinities at the exponent 128, rounding to nearest with ties to even. *)

Module Float32.

Import SpecFloat.

Definition float32 := spec_float.

Definition prec : Z := 24.
Definition emax : Z := 128.

Definition add (x y : float32) : float32 := SFadd prec emax x y.
Definition sub (x y : float32) : float32 := SFsub prec emax x y.
Definition less (x y : float32) : bool := SFltb x y.
Definition less_equal (x y : float32) : bool := SFleb x y.

(** [tf.minimum] and [tf.maximum]: [y < x ? y : x] and [x < y ? y : x]. *)
Definition minimum (x y : float32) : float32 := if less y x then y else x.
Definition maximum (x y : float32) : float32 := if less x y then y else x.

(** [tf.clip_by_value] *)
Definition clip_by_value32 (t lo hi : float32) : float32 :=
  maximum (minimum t hi) lo.

(** [tf.stop_gradient], forward value. *)
Definition stop_gradient32 (x : float32) : float32 := x.

(** The constant [1.] *)
Definition one : float32 := S754_finite false 8388608 (-23).

(** Lines 145-147 of [AIRCell._build], for one entry of [presence_prob]. *)
Definition explore_clip32 (explore_eps : option float32)
  (presence_prob : float32) : float32 :=
  match explore_eps with
  | Some eps =>
      let clipped_prob := clip_by_value32 presence_prob eps (sub one eps) in
      add (stop_gradient32 (sub clipped_prob presence_prob)) presence_prob
  | None => presence_prob
  end.

(** What [tf.nn.sigmoid] can answer: a binary32 number that is finite and not
    negative. *)
Definition probability (x : float32) : bool :=
  match x with
  | S754_zero false | S754_finite false _ _ => valid_binary prec emax x
  | _ => false
  end.

(** The binary32 numbers nearest to 0.1, to 0.035 and to 0.5. *)
Definition tenth : float32 := S754_finite false 13421773 (-27).
Definition thirty_five_thousandths : float32 := S754_finite false 9395241 (-28).
Definition half : float32 := S754_finite false 8388608 (-24).

End Float32.

(** ** The loss accumulator ([ops.py]) *)

Module Ops.

(** Modelled from the spec: the class [Loss] of [ops.py], which is not among
    the sources.  It holds a scalar aggregate value and a per-sample vector,
    both empty at first, and composes named loss terms additively, keeping the
    per-sample breakdown. *)
Record Loss := {
  _value : option R;
  _per_sample : option vec
}.

Definition Loss_new : Loss := {| _value := None; _per_sample := None |}.

Definition Loss_update {A : Type} (plus : A -> A -> A) (acc : option A) (expr : A)
  : option A :=
  match acc with
  | None => Some expr
  | Some a => Some (plus a expr)
  end.

(** [loss.add(value, per_sample)] *)
Definition Loss_add (l : Loss) (loss : R) (per_sample : vec) : Loss :=
  {| _value := Loss_update Rplus (_value l) loss;
     _per_sample := Loss_update (zipWith Rplus) (_per_sample l) per_sample |}.

(** [loss.value] *)
Definition value (l : Loss) : R :=
  match _value l with Some v => v | None => 0 end.

(** [loss.per_sample] *)
Definition per_sample (l : Loss) : vec :=
  match _per_sample l with Some v => v | None => [] end.

(** [loss.add(other_loss)]; an accumulator without terms adds nothing. *)
Definition Loss_add_loss (l other : Loss) : Loss :=
  match _value other, _per_sample other with
  | Some v, Some ps => Loss_add l v ps
  | _, _ => l
  end.

End Ops.

Import Ops.

(** ** The model ([model.py]) *)

Module Model.

(** The names imported from [prior.py], which is not among the sources; the
    model is stated for any implementation of them. *)
Record PriorModule := {
  geometric_prior : R -> nat -> vec;
  tabular_kl : tensor2 -> vec -> tensor2;
  NumStepsDistribution_prob : tensor2 -> tensor2;
  NumStepsDistribution_log_prob : tensor2 -> vec -> vec
}.

(** An [AttrDict] with [loc] and [scale]. *)
Record LocScale := { prior_loc : R; prior_scale : R }.

(** The [where_shift_prior]: ['loc'] may be absent. *)
Record ShiftPrior := { shift_loc : option R; shift_scale : R }.

(** The [num_steps_prior] of the docstring of [train_step]; [anneal] is
    ['exp'], ['linear'] or [None]. *)
Inductive Anneal := AnnealExp | AnnealLinear.

Record NumStepsPrior := {
  anneal : option Anneal;
  init : R;
  final : R;
  steps_div : R;
  steps : R
}.

(** A baseline module: called with the images and the what, where and
    presence-probability sequences, it predicts one value per sample.  As the
    output of [MLP(n_out=1)] in [BaselineMLP], the prediction is a tensor of
    shape [(batch, 1)], held as the list of its entries. *)
Definition Baseline := tensor2 -> tensor3 -> tensor3 -> tensor2 -> vec.

(** [self.importance_weight]: [loss._per_sample], of shape [(batch,)], when
    there is no baseline; once the [(batch, 1)] prediction of the baseline has
    been subtracted, a tensor of shape [(batch, batch)]. *)
Inductive ImportanceWeight :=
| PerSample (w : vec)
| Pairwise (w : tensor2).

(** A trainable variable of the graph: its name, whether it lives in the
    variable scope of the baseline module, the rank of its shape, and its
    entries. *)
Record TfVariable := {
  var_name : String.string;
  in_baseline_scope : bool;
  var_rank : nat;
  var_entries : vec
}.

Fixpoint transpose (t : tensor2) : tensor2 :=
  match t with
  | [] => []
  | [r] => map (fun x => [x]) r
  | r :: rs => zipWith cons r (transpose rs)
  end.

Section WithHidden.

Variable Hidden : Type.
Variable prior : PriorModule.

Record AIRModel := {
  obs : tensor2;
  nums : tensor2;
  max_steps : nat;
  glimpse_size : list nat;
  n_appearance : nat;
  output_std : R;
  discrete_steps : bool;
  explore_eps : option R;
  debug : bool;
  batch_size : nat;
  img_size : list nat;
  cell : AIRCell Hidden;
  canvas : tensor3;
  glimpse : tensor3;
  what : tensor3;
  what_loc : tensor3;
  what_scale : tensor3;
  where_ : tensor3;
  where_loc : tensor3;
  where_scale : tensor3;
  presence_prob : tensor2;
  presence : tensor2;
  final_canvas : tensor2;
  num_steps_distrib : tensor2;
  num_step_per_sample : vec;
  num_step : R;
  gt_num_steps : vec;
  baseline : option Baseline
}.

(** [AIRModel.__init__] and [AIRModel._build].  [obs] holds the images
    flattened, so [img_size], the static shape [shape[1:]], is passed along;
    [self_baseline] is the attribute [baseline] a subclass may have set. *)
Definition AIRModel_init (obs nums : tensor2) (img_size : list nat)
  (max_steps : nat) (glimpse_size : list nat) (n_appearance : nat)
  (f : Callables Hidden) (mk : Created)
  (output_std : R) (discrete_steps : bool) (explore_eps : option R)
  (debug : bool) (self_baseline : option Baseline) (noise : nat -> Noise)
  : construction AIRModel :=
  let batch_size := length obs in
  match AIRCell_init Hidden img_size glimpse_size n_appearance f mk
          discrete_steps None explore_eps debug with
  | ConfigError => ConfigError
  | Built cell =>
      let initial_state := initial_state Hidden cell obs in
      let dummy_sequence := repeat (repeat 0 batch_size) max_steps in
      let '(outputs, state) :=
        dynamic_rnn Hidden cell noise 0 dummy_sequence initial_state in
      let presence := map (Cell.presence) outputs in
      let glimpse :=
        zipWith scale_rows presence
                (map (fun o => map (map sigmoid) (Cell.glimpse o)) outputs) in
      let canvas := map (Cell.canvas) outputs in
      let final_canvas := last canvas [] in
      let presence_prob := map (Cell.presence_prob) outputs in
      let posterior_step_probs := transpose presence_prob in
      let num_step_per_sample := reduce_sum_axis0 presence in
      Built {|
        obs := obs; nums := nums; max_steps := max_steps;
        glimpse_size := glimpse_size; n_appearance := n_appearance;
        output_std := output_std; discrete_steps := discrete_steps;
        explore_eps := explore_eps; debug := debug;
        batch_size := batch_size; img_size := img_size;
        cell := cell;
        canvas := canvas; glimpse := glimpse;
        what := map (Cell.what) outputs;
        what_loc := map (Cell.what_loc) outputs;
        what_scale := map (Cell.what_scale) outputs;
        where_ := map (Cell.where_) outputs;
        where_loc := map (Cell.where_loc) outputs;
        where_scale := map (Cell.where_scale) outputs;
        presence_prob := presence_prob;
        presence := presence;
        final_canvas := final_canvas;
        num_steps_distrib := posterior_step_probs;
        num_step_per_sample := num_step_per_sample;
        num_step := reduce_mean num_step_per_sample;
        gt_num_steps := reduce_sum_axis0 nums;
        baseline := self_baseline
      |}
  end.

(** *** The prior term *)

(** [tf.train.exponential_decay(learning_rate, global_step, decay_steps,
    decay_rate)] *)
Definition exponential_decay (learning_rate : R) (global_step : nat)
  (decay_steps decay_rate : R) : R :=
  learning_rate * Rpower decay_rate (INR global_step / decay_steps).

(** The annealed value of the num-steps prior, lines 99-114; the power of
    line 106 has a positive base whenever [0 < final] and [0 < init]. *)
Definition num_steps_prior_value (nsp : NumStepsPrior) (global_step : nat) : R :=
  match anneal nsp with
  | Some a =>
      let val := init nsp in
      let val :=
        match a with
        | AnnealExp =>
            let decay_rate :=
              Rpower (final nsp / init nsp) (steps_div nsp / steps nsp) in
            exponential_decay val global_step (steps_div nsp) decay_rate
        | AnnealLinear =>
            final nsp
            + (init nsp - final nsp) * (1 - INR global_step / steps nsp)
        end in
      Rmax (final nsp) val
  | None => init nsp
  end.

(** The table the step-count posterior is compared with, line 116. *)
Definition num_steps_prior_table (nsp : NumStepsPrior) (global_step : nat) : vec :=
  geometric_prior prior (num_steps_prior_value nsp global_step) 3.

Definition normal3 (locs scales : tensor3) : list (list (list Normal)) :=
  zipWith (zipWith (zipWith (fun l s => {| loc := l; scale := s |}))) locs scales.

(** [tf.reduce_sum(kl, -1, keep_dims=True) * presence] *)
Definition gate_by_presence (kl : tensor3) (presence : tensor2) : tensor2 :=
  zipWith (zipWith Rmult) (map (map reduce_sum) kl) presence.

(** [tf.split(t, 4, 2)] of one row. *)
Definition split4 (row : vec) : vec * vec * vec * vec :=
  let q := Nat.div (length row) 4 in
  (firstn q row, firstn q (skipn q row),
   firstn q (skipn (2 * q) row), skipn (3 * q) row).

(** [us] and [ss]: the first and third quarter of each row. *)
Definition scale_part (t : tensor3) : tensor3 :=
  map (map (fun row => let '(sx, _, sy, _) := split4 row in sx ++ sy)) t.

(** [ut] and [st]: the second and fourth quarter of each row. *)
Definition shift_part (t : tensor3) : tensor3 :=
  map (map (fun row => let '(_, tx, _, ty) := split4 row in tx ++ ty)) t.

(** [scale_kl], lines 144-146. *)
Definition scale_kl (m : AIRModel) (where_scale_prior : LocScale) : tensor3 :=
  let us := scale_part (where_loc m) in
  let ss := scale_part (where_scale m) in
  let scale_prior :=
    {| loc := prior_loc where_scale_prior; scale := prior_scale where_scale_prior |} in
  map (map (map (fun d => kl_normal d scale_prior))) (normal3 us ss).

(** [shift_kl], lines 148-158: without ['loc'] in the prior, the mean of the
    prior is the posterior mean [ut] itself. *)
Definition shift_kl (m : AIRModel) (where_shift_prior : ShiftPrior) : tensor3 :=
  let ut := shift_part (where_loc m) in
  let st := shift_part (where_scale m) in
  let shift_prior (u : R) :=
    let shift_mean :=
      match shift_loc where_shift_prior with
      | Some l => l
      | None => u
      end in
    {| loc := shift_mean; scale := shift_scale where_shift_prior |} in
  zipWith (zipWith (zipWith
    (fun u s => kl_normal {| loc := u; scale := s |} (shift_prior u)))) ut st.

(** The pose term, lines 159-161: per sample, and its batch mean. *)
Definition where_kl_per_sample (m : AIRModel) (where_scale_prior : LocScale)
  (where_shift_prior : ShiftPrior) : vec :=
  let kl :=
    zipWith (zipWith (zipWith Rplus))
            (scale_kl m where_scale_prior) (shift_kl m where_shift_prior) in
  reduce_sum_axis0 (gate_by_presence kl (presence m)).

(** The appearance term, lines 125-130. *)
Definition appearance_prior_loss_per_sample (m : AIRModel)
  (appearance_prior : LocScale) : vec :=
  let prior :=
    {| loc := prior_loc appearance_prior; scale := prior_scale appearance_prior |} in
  let posterior := normal3 (what_loc m) (what_scale m) in
  let what_kl := map (map (map (fun d => kl_normal d prior))) posterior in
  reduce_sum_axis0 (gate_by_presence what_kl (presence m)).

(** The step-count term, lines 116-118. *)
Definition num_steps_prior_loss_per_sample (m : AIRModel) (nsp : NumStepsPrior)
  (global_step : nat) : vec :=
  let prior_table := num_steps_prior_table nsp global_step in
  let steps_kl :=
    tabular_kl prior (NumStepsDistribution_prob prior (num_steps_distrib m))
               prior_table in
  map reduce_sum steps_kl.

(** [AIRModel._prior_loss].  The result is [None] where Python raises: inside
    the branch of the appearance prior the two pose priors are dereferenced
    without a test for [None]. *)
Definition _prior_loss (m : AIRModel) (appearance_prior : option LocScale)
  (where_scale_prior : option LocScale) (where_shift_prior : option ShiftPrior)
  (num_steps_prior : option NumStepsPrior) (global_step : nat) : option Loss :=
  let prior_loss := Loss_new in
  let prior_loss :=
    match num_steps_prior with
    | Some nsp =>
        let per_sample := num_steps_prior_loss_per_sample m nsp global_step in
        Loss_add prior_loss (reduce_mean per_sample) per_sample
    | None => prior_loss
    end in
  match appearance_prior with
  | Some ap =>
      let per_sample := appearance_prior_loss_per_sample m ap in
      let prior_loss := Loss_add prior_loss (reduce_mean per_sample) per_sample in
      match where_scale_prior, where_shift_prior with
      | Some wsc, Some wsh =>
          let where_kl_per_sample := where_kl_per_sample m wsc wsh in
          Some (Loss_add prior_loss (reduce_mean where_kl_per_sample)
                         where_kl_per_sample)
      | _, _ => None
      end
  | None => Some prior_loss
  end.

(** *** REINFORCE *)

Record Reinforce := {
  r_baseline : option vec;
  r_importance_weight : ImportanceWeight;
  r_reinforce_loss : R;
  r_baseline_vars : list TfVariable;
  r_baseline_loss : option R
}.

(** [AIRModel._reinforce]; [trainable_variables] is the collection of trainable
    variables of the graph.  The baseline train step minimises
    [r_baseline_loss] over [r_baseline_vars].  Lines 184 and 196 subtract the
    [(batch, 1)] prediction of the baseline from a [(batch,)] tensor, which
    broadcasts to [(batch, batch)]; the product with the [(batch,)]
    log-probabilities and the two means are taken over that shape. *)
Definition _reinforce (m : AIRModel) (loss : Loss)
  (baseline' : option Baseline) (trainable_variables : list TfVariable)
  : Reinforce :=
  let baseline' :=
    match baseline' with
    | None => baseline m
    | Some b => Some b
    end in
  let self_baseline :=
    option_map (fun b => b (obs m) (what m) (where_ m) (presence_prob m)) baseline' in
  let log_prob :=
    NumStepsDistribution_log_prob prior (num_steps_distrib m)
                                  (num_step_per_sample m) in
  let log_prob := map (fun l => clip_by_value l (-1e38) 1e38) log_prob in
  let importance_weight := PerSample (per_sample loss) in
  let importance_weight :=
    match self_baseline with
    | Some b => Pairwise (sub_column (per_sample loss) b)
    | None => importance_weight
    end in
  let reinforce_loss :=
    match importance_weight with
    | PerSample w =>
        let reinforce_loss_per_sample :=
          zipWith Rmult (map stop_gradient w) log_prob in
        reduce_mean reinforce_loss_per_sample
    | Pairwise w =>
        let reinforce_loss_per_sample :=
          mul_rows (map (map stop_gradient) w) log_prob in
        reduce_mean2 reinforce_loss_per_sample
    end in
  let baseline_vars :=
    match self_baseline with
    | Some _ => filter in_baseline_scope trainable_variables
    | None => []
    end in
  let baseline_loss :=
    match self_baseline with
    | Some b =>
        let baseline_target := map stop_gradient (per_sample loss) in
        let baseline_loss_per_sample :=
          map (map Rsqr) (sub_column baseline_target b) in
        Some (reduce_mean2 baseline_loss_per_sample)
    | None => None
    end in
  {| r_baseline := self_baseline;
     r_importance_weight := importance_weight;
     r_reinforce_loss := reinforce_loss;
     r_baseline_vars := baseline_vars;
     r_baseline_loss := baseline_loss |}.

(** *** The training step *)

Record TrainArgs := {
  learning_rate : R;
  l2_weight : R;
  appearance_prior : option LocScale;
  where_scale_prior : option LocScale;
  where_shift_prior : option ShiftPrior;
  num_steps_prior : option NumStepsPrior;
  use_prior : bool;
  use_reinforce : bool;
  arg_baseline : option Baseline
}.

(** What [train_step] leaves behind: the attributes it sets and the objective
    [opt_loss] handed to the optimiser. *)
Record TrainStep := {
  loss : Loss;
  rec_loss_per_sample : vec;
  rec_loss : R;
  prior_loss : option Loss;
  reinforce : option Reinforce;
  l2_loss : option R;
  model_vars : list TfVariable;
  opt_loss : R
}.

(** [tf.nn.l2_loss] *)
Definition tf_l2_loss (w : TfVariable) : R :=
  reduce_sum (map Rsqr (var_entries w)) / 2.

(** The reconstruction term, lines 251-253: minus the log-probability of the
    image under [Normal(final_canvas, output_std)], summed over the pixels of
    each sample. *)
Definition reconstruction_loss_per_sample (m : AIRModel) : vec :=
  let rec_loss_per_sample :=
    zipWith (zipWith (fun c x =>
               - normal_log_prob {| loc := c; scale := output_std m |} x))
            (final_canvas m) (obs m) in
  map reduce_sum rec_loss_per_sample.

(** [AIRModel.train_step], up to the objective [opt_loss] that is handed to
    [compute_gradients]. *)
Definition train_step (m : AIRModel) (a : TrainArgs) (global_step : nat)
  (trainable_variables : list TfVariable) : option TrainStep :=
  let loss := Loss_new in
  let rec_loss_per_sample := reconstruction_loss_per_sample m in
  let rec_loss := reduce_mean rec_loss_per_sample in
  let loss := Loss_add loss rec_loss rec_loss_per_sample in
  let with_prior :=
    if use_prior a then
      match _prior_loss m (appearance_prior a) (where_scale_prior a)
                        (where_shift_prior a) (num_steps_prior a) global_step with
      | Some pl => Some (Some pl, Loss_add_loss loss pl)
      | None => None
      end
    else Some (None, loss) in
  match with_prior with
  | None => None
  | Some (prior_loss, loss) =>
      let opt_loss := value loss in
      let reinforce :=
        if use_reinforce a
        then Some (_reinforce m loss (arg_baseline a) trainable_variables)
        else None in
      let baseline_vars :=
        match reinforce with Some r => r_baseline_vars r | None => [] end in
      let opt_loss :=
        match reinforce with
        | Some r => opt_loss + r_reinforce_loss r
        | None => opt_loss
        end in
      let model_vars :=
        filter (fun v =>
                  negb (existsb (fun b => String.eqb (var_name b) (var_name v))
                                baseline_vars))
               trainable_variables in
      let l2_loss :=
        if Rlt_dec 0 (l2_weight a) then
          let weights := filter (fun w => Nat.eqb (var_rank w) 2) model_vars in
          Some (l2_weight a * fold_right Rplus 0 (map tf_l2_loss weights))
        else None in
      let opt_loss :=
        match l2_loss with
        | Some l2 => opt_loss + l2
        | None => opt_loss
        end in
      Some {| loss := loss;
              rec_loss_per_sample := rec_loss_per_sample;
              rec_loss := rec_loss;
              prior_loss := prior_loss;
              reinforce := reinforce;
              l2_loss := l2_loss;
              model_vars := model_vars;
              opt_loss := opt_loss |}
  end.

End WithHidden.

End Model.

Import Model.

Arguments _img_size {Hidden}.
Arguments _n_pix {Hidden}.
Arguments _crop_size {Hidden}.
Arguments _n_appearance {Hidden}.
Arguments _transition {Hidden}.
Arguments _transition_initial_state {Hidden}.
Arguments _n_hidden {Hidden}.
Arguments _sample_presence {Hidden}.
Arguments _explore_eps {Hidden}.
Arguments _debug {Hidden}.
Arguments _canvas {Hidden}.
Arguments _spatial_transformer {Hidden}.
Arguments _inverse_transformer {Hidden}.
Arguments _transform_estimator {Hidden}.
Arguments _input_encoder {Hidden}.
Arguments _glimpse_encoder {Hidden}.
Arguments _glimpse_decoder {Hidden}.
Arguments _what_distrib {Hidden}.
Arguments _steps_predictor {Hidden}.
Arguments _rnn_projection {Hidden}.
Arguments _where_init {Hidden}.
Arguments _what_init {Hidden}.
Arguments st_image {Hidden}.
Arguments st_canvas {Hidden}.
Arguments st_what {Hidden}.
Arguments st_where {Hidden}.
Arguments st_hidden {Hidden}.
Arguments st_presence {Hidden}.
Arguments transition {Hidden}.
Arguments transition_initial_state {Hidden}.
Arguments transition_output_size {Hidden}.
Arguments input_encoder {Hidden}.
Arguments glimpse_encoder {Hidden}.
Arguments glimpse_decoder {Hidden}.
Arguments transform_estimator {Hidden}.
Arguments steps_predictor {Hidden}.
Arguments Model.obs {Hidden}.
Arguments Model.nums {Hidden}.
Arguments Model.max_steps {Hidden}.
Arguments Model.glimpse_size {Hidden}.
Arguments Model.n_appearance {Hidden}.
Arguments Model.output_std {Hidden}.
Arguments Model.discrete_steps {Hidden}.
Arguments Model.explore_eps {Hidden}.
Arguments Model.debug {Hidden}.
Arguments Model.batch_size {Hidden}.
Arguments Model.img_size {Hidden}.
Arguments Model.cell {Hidden}.
Arguments Model.canvas {Hidden}.
Arguments Model.glimpse {Hidden}.
Arguments Model.what {Hidden}.
Arguments Model.what_loc {Hidden}.
Arguments Model.what_scale {Hidden}.
Arguments Model.where_ {Hidden}.
Arguments Model.where_loc {Hidden}.
Arguments Model.where_scale {Hidden}.
Arguments Model.presence_prob {Hidden}.
Arguments Model.presence {Hidden}.
Arguments Model.final_canvas {Hidden}.
Arguments Model.num_steps_distrib {Hidden}.
Arguments Model.num_step_per_sample {Hidden}.
Arguments Model.num_step {Hidden}.
Arguments Model.gt_num_steps {Hidden}.
Arguments Model.baseline {Hidden}.
Arguments scale_kl {Hidden}.
Arguments shift_kl {Hidden}.
Arguments where_kl_per_sample {Hidden}.
Arguments appearance_prior_loss_per_sample {Hidden}.
Arguments num_steps_prior_loss_per_sample {Hidden}.
Arguments reconstruction_loss_per_sample {Hidden}.
Arguments AIRCell_init {Hidden}.
Arguments initial_state {Hidden}.
Arguments _build {Hidden}.
Arguments dynamic_rnn {Hidden}.
Arguments AIRModel_init {Hidden}.
Arguments _prior_loss {Hidden}.
Arguments _reinforce {Hidden}.
Arguments train_step {Hidden}.

(** ** The transform estimators and the other sub-networks ([modules.py]) *)

Module Estimators.

(** [TransformParam]: [tp_mlp] stands for [MLP(n_hidden, n_out=n_param)]
    behind [snt.BatchFlatten], which leaves a [(batch, n)] tensor as it is. *)
Record TransformParam := {
  tp_mlp : tensor2 -> tensor2;
  _n_param : nat;
  _max_crop_size : R
}.

(** [TransformParam._embed] *)
Definition _embed (tp : TransformParam) (inpt : tensor2) : tensor2 :=
  tp_mlp tp inpt.

(** [TransformParam._transform] *)
Definition _transform (tp : TransformParam) (inpt : tensor2) : tensor2 :=
  map (fun row =>
         let '(sx, tx, sy, ty) := split4 row in
         let sx := map (fun s => _max_crop_size tp * sigmoid s) sx in
         let sy := map (fun s => _max_crop_size tp * sigmoid s) sy in
         let tx := map tanh tx in
         let ty := map tanh ty in
         sx ++ tx ++ sy ++ ty)
      inpt.

(** [TransformParam._build].  Its first statement calls [self._build] again;
    [depth] is the number of frames the interpreter allows, and the result is
    [None] when they are used up (RecursionError). *)
Fixpoint TransformParam_build (depth : nat) (tp : TransformParam)
  (inpt : tensor2) : option tensor2 :=
  match depth with
  | O => None
  | S depth' =>
      match TransformParam_build depth' tp inpt with
      | Some embedding => Some (_transform tp embedding)
      | None => None
      end
  end.

(** [StochasticTransformParam]: its base is a [TransformParam] with twice the
    number of parameters. *)
Record StochasticTransformParam := {
  stp_base : TransformParam;
  _scale_bias : R
}.

(** [StochasticTransformParam.__init__]; [mlp n] stands for
    [MLP(n_hidden, n_out=n)].  The default [max_crop_size] is 1.0 and the
    default [scale_bias] is -2. *)
Definition StochasticTransformParam_init (mlp : nat -> tensor2 -> tensor2)
  (n_param : nat) (max_crop_size scale_bias : R) : StochasticTransformParam :=
  {| stp_base := {| tp_mlp := mlp (n_param * 2)%nat;
                    _n_param := (n_param * 2)%nat;
                    _max_crop_size := max_crop_size |};
     _scale_bias := scale_bias |}.

(** [StochasticTransformParam._build]; the division is the integer division
    of Python 2. *)
Definition StochasticTransformParam_build (stp : StochasticTransformParam)
  (inpt : tensor2) : tensor2 * tensor2 :=
  let embedding := _embed (stp_base stp) inpt in
  let n_params := Nat.div (_n_param (stp_base stp)) 2 in
  let locs := _transform (stp_base stp) (map (firstn n_params) embedding) in
  let scales := map (skipn n_params) embedding in
  (locs, map (map (fun s => s + _scale_bias stp)) scales).

(** [Encoder._build]: [snt.BatchFlatten] and an MLP. *)
Definition Encoder_build (mlp : tensor2 -> tensor2) (inpt : tensor2) : tensor2 :=
  mlp inpt.

(** [Decoder._build]: an MLP with [np.prod(output_size)] outputs and a
    reshape to [output_size]. *)
Definition Decoder_build (mlp : nat -> tensor2 -> tensor2)
  (output_size : list nat) (inpt : tensor2) : tensor2 :=
  let n := np_prod output_size in
  mlp n inpt.

(** [reshape(transpose(x, (1, 0, 2)), (batch_size, -1))]: the row of a sample
    is the concatenation, over the steps, of its rows. *)
Definition steps_to_columns (batch_size : nat) (x : tensor3) : tensor2 :=
  map (fun b => concat (map (fun step => nth b step []) x)) (seq 0 batch_size).

(** [BaselineMLP._build]; [mlp] stands for [MLP(n_hidden, n_out=1)], whose
    output, and with it the prediction, has the shape [(batch, 1)]. *)
Definition BaselineMLP_build (mlp : tensor2 -> vec) : Baseline :=
  fun img what where_ presence_prob =>
    let batch_size := length img in
    let parts :=
      [steps_to_columns batch_size what;
       steps_to_columns batch_size where_;
       steps_to_columns batch_size (map (map (fun p => [p])) presence_prob)] in
    let img_flat := img in
    let baseline_inpts := fold_left concat2 parts img_flat in
    mlp baseline_inpts.

End Estimators.

Import Estimators.

(** ** The model for MNIST ([mnist_model.py]) *)

Module MnistModel.

Section WithHidden.

Variable Hidden : Type.

(** The networks [AIRonMNIST] creates: the [snt.LSTM(256)] with its initial
    state, and the MLPs of the encoders, of the decoder, of the transform
    estimator, of the steps predictor and of the baseline. *)
Record Networks := {
  lstm : tensor2 -> Hidden -> tensor2 * Hidden;
  lstm_initial_state : nat -> Hidden;
  inpt_encoder_mlp : tensor2 -> tensor2;
  glimpse_encoder_mlp : tensor2 -> tensor2;
  glimpse_decoder_mlp : nat -> tensor2 -> tensor2;
  transform_estimator_mlp : nat -> tensor2 -> tensor2;
  steps_pred_mlp : tensor2 -> vec;
  baseline_mlp : tensor2 -> vec
}.

(** The callables [AIRonMNIST.__init__] hands to [AIRModel.__init__]. *)
Definition AIRonMNIST_callables (nets : Networks)
  (transform_var_bias step_bias : R) : Callables Hidden := {|
  transition := lstm nets;
  transition_initial_state := lstm_initial_state nets;
  transition_output_size := 256;
  input_encoder := fun _ => Encoder_build (inpt_encoder_mlp nets);
  glimpse_encoder := fun _ => Encoder_build (glimpse_encoder_mlp nets);
  glimpse_decoder := Decoder_build (glimpse_decoder_mlp nets);
  transform_estimator := fun n_param =>
    StochasticTransformParam_build
      (StochasticTransformParam_init (transform_estimator_mlp nets) n_param 1
                                     transform_var_bias);
  steps_predictor := fun _ =>
    {| sp_mlp := steps_pred_mlp nets; _steps_bias := step_bias |}
|}.

(** [AIRonMNIST.__init__]: 50 appearance units, an output deviation of 0.3
    and the attribute [baseline] set to a [BaselineMLP].  The remaining
    arguments are those passed on to [AIRModel.__init__]. *)
Definition AIRonMNIST_init (obs nums : tensor2) (img_size : list nat)
  (glimpse_size : list nat) (nets : Networks) (mk : Created)
  (transform_var_bias step_bias : R)
  (max_steps : nat) (discrete_steps : bool) (explore_eps : option R)
  (debug : bool) (noise : nat -> Noise) : construction (AIRModel Hidden) :=
  let baseline := BaselineMLP_build (baseline_mlp nets) in
  AIRModel_init obs nums img_size max_steps glimpse_size 50
                (AIRonMNIST_callables nets transform_var_bias step_bias) mk
                0.3 discrete_steps explore_eps debug (Some baseline) noise.

End WithHidden.

End MnistModel.

Import MnistModel.

Arguments AIRonMNIST_callables {Hidden}.
Arguments AIRonMNIST_init {Hidden}.

(** ** Concrete instances

    A small cell for images of 1 x 2 pixels: the encoders and the transition
    pass their input through, the steps predictor answers with the logit 0. *)

Module Sample.

Definition callables : Callables unit := {|
  transition := fun x h => (x, h);
  transition_initial_state := fun _ => tt;
  transition_output_size := 1;
  input_encoder := fun _ x => x;
  glimpse_encoder := fun _ x => x;
  glimpse_decoder := fun _ x => x;
  transform_estimator := fun _ h => (h, h);
  steps_predictor := fun _ => {| sp_mlp := map (fun _ => 0); _steps_bias := 0 |}
|}.

Definition created : Created := {|
  new_spatial_transformer := fun img _ => img;
  new_inverse_transformer := fun decoded _ => decoded;
  new_rnn_projection := fun x => x;
  new_what_transform := fun x => x;
  where_init := [0; 0; 0; 0];
  what_init := [0]
|}.

(** The cell [AIRCell.__init__] returns for these callables. *)
Definition cell (discrete_steps : bool) (explore_eps : option R) : AIRCell unit :=
  {| _img_size := [1%nat; 2%nat]; _n_pix := 2;
     _crop_size := [1%nat; 1%nat]; _n_appearance := 1;
     _transition := transition callables;
     _transition_initial_state := transition_initial_state callables;
     _n_hidden := 1; _sample_presence := discrete_steps;
     _explore_eps := explore_eps; _debug := false; _canvas := [0; 0];
     _spatial_transformer := new_spatial_transformer created;
     _inverse_transformer := new_inverse_transformer created;
     _transform_estimator := transform_estimator callables 4;
     _input_encoder := input_encoder callables tt;
     _glimpse_encoder := glimpse_encoder callables tt;
     _glimpse_decoder := glimpse_decoder callables [1%nat; 1%nat];
     _what_distrib := {| _n_params := 1; _scale_offset := -1;
                         pg_transform := new_what_transform created |};
     _steps_predictor := steps_predictor callables tt;
     _rnn_projection := new_rnn_projection created;
     _where_init := [0; 0; 0; 0]; _what_init := [0] |}.

(** The draws for a batch of two, the same at every step. *)
Definition noise (t : nat) : Noise :=
  {| eps_where := [[0; 0; 0; 0]; [0; 0; 0; 0]];
     u_presence := [1 / 4; 3 / 4];
     eps_what := [[0]; [0]] |}.

(** A batch of two blank images. *)
Definition blank : tensor2 := [[0; 0]; [0; 0]].


(** Modelled from the spec: the step-count posterior of [prior.py], which is
    not among the sources.  The per-step presence probabilities define a
    distribution over the number of steps taken by a chain of Bernoulli
    decisions: [n] steps are taken when the first [n] decisions succeed and the
    next one, if there is one, fails. *)
Fixpoint bernoulli_chain (probs : vec) : vec :=
  match probs with
  | [] => [1]
  | p :: ps => (1 - p) :: map (Rmult p) (bernoulli_chain ps)
  end.

(** The entry of a table at a step count given as a float. *)
Fixpoint table_at (table : vec) (n : R) : R :=
  match table with
  | [] => 0
  | x :: rest => if Req_dec_T n 0 then x else table_at rest (n - 1)
  end.

(** Modelled from the spec: the geometric prior table of [prior.py], where the
    probability decays geometrically with the step index, and the tabular
    KL divergence of a posterior table from it. *)
Definition geometric_table (success_prob : R) (n_steps : nat) : vec :=
  map (fun k => (1 - success_prob) * success_prob ^ k) (seq 0 (S n_steps)).

Definition prior_module : PriorModule := {|
  geometric_prior := geometric_table;
  tabular_kl := fun posterior table =>
    map (fun row => zipWith (fun q p => q * (ln q - ln p)) row table) posterior;
  NumStepsDistribution_prob := map bernoulli_chain;
  NumStepsDistribution_log_prob := fun probs samples =>
    zipWith (fun row n => ln (table_at (bernoulli_chain row) n)) probs samples
|}.

(** Posterior pose locations for two steps on a batch of two, and the same
    with other shift locations. *)
Definition pose : tensor3 :=
  [[[1; 0; 1; 0]; [1; 0; 1; 0]]; [[1; 0; 1; 0]; [1; 0; 1; 0]]].

Definition pose_shifted : tensor3 :=
  [[[1; 5; 1; 7]; [1; -3; 1; 2]]; [[1; 4; 1; 0]; [1; 1; 1; -1]]].

(** A model of two steps on the batch [blank]: the first step has the presence
    probability [p0] and the presence [taken], the second step the probability
    1/2 and the presence 0. *)
Definition model (p0 taken : R) (where_loc : tensor3) : AIRModel unit := {|
  obs := blank; nums := [[0; 0]]; max_steps := 2;
  glimpse_size := [1%nat; 1%nat]; n_appearance := 1;
  output_std := 1; discrete_steps := true; explore_eps := None;
  debug := false; batch_size := 2; img_size := [1%nat; 2%nat];
  Model.cell := cell true None;
  canvas := [blank; blank]; glimpse := [[[0]; [0]]; [[0]; [0]]];
  what := [[[0]; [0]]; [[0]; [0]]]; what_loc := [[[0]; [0]]; [[0]; [0]]];
  what_scale := [[[1]; [1]]; [[1]; [1]]];
  where_ := pose; where_loc := where_loc;
  where_scale := [[[1; 1; 1; 1]; [1; 1; 1; 1]]; [[1; 1; 1; 1]; [1; 1; 1; 1]]];
  presence_prob := [[p0; p0]; [1 / 2; 1 / 2]];
  presence := [[taken; taken]; [0; 0]];
  final_canvas := blank;
  num_steps_distrib := [[p0; 1 / 2]; [p0; 1 / 2]];
  num_step_per_sample := [taken + 0; taken + 0];
  num_step := reduce_mean [taken + 0; taken + 0];
  gt_num_steps := [0; 0];
  baseline := None
|}.

Definition args (use_prior use_reinforce : bool) (appearance : option LocScale)
  (baseline : option Baseline) : TrainArgs := {|
  learning_rate := 1 / 10000;
  l2_weight := 0;
  appearance_prior := appearance;
  where_scale_prior := Some {| prior_loc := 1 / 2; prior_scale := 1 |};
  where_shift_prior := Some {| shift_loc := None; shift_scale := 1 |};
  num_steps_prior := None;
  use_prior := use_prior;
  use_reinforce := use_reinforce;
  arg_baseline := baseline
|}.



(** A baseline that predicts the reconstruction loss of a blank image, which
    is [ln (2 * PI)], minus one. *)
Definition baseline_off_by_one : Baseline :=
  fun _ _ _ _ => [ln (2 * PI) - 1; ln (2 * PI) - 1].

(** A carried state of the batch [blank] in which the second sample has been
    dropped, with something already painted on both canvases. *)
Definition dropped_state : State unit := {|
  st_image := blank;
  st_canvas := [[1 / 2; 0]; [1 / 4; 1 / 4]];
  st_what := [[0]; [0]];
  st_where := [[0; 0; 0; 0]; [0; 0; 0; 0]];
  st_hidden := tt;
  st_presence := [1; 0]
|}.

(** A baseline that predicts nothing but zeros for the batch of two, and a
    total loss of the batch of two. *)
Definition zero_baseline : Baseline := fun _ _ _ _ => [0; 0].

Definition some_loss : Loss := Loss_add Loss_new 2 [1; 3].

(** A baseline that predicts the per-sample loss [some_loss] exactly. *)
Definition exact_baseline : Baseline := fun _ _ _ _ => [1; 3].

(** The cell with an inverse transformer that answers, as line 167 of
    [cell.py] requires, with one row of [n_pix] entries per sample. *)
Definition shaped_cell (discrete_steps : bool) (explore_eps : option R)
  : AIRCell unit :=
  {| _img_size := [1%nat; 2%nat]; _n_pix := 2;
     _crop_size := [1%nat; 1%nat]; _n_appearance := 1;
     _transition := transition callables;
     _transition_initial_state := transition_initial_state callables;
     _n_hidden := 1; _sample_presence := discrete_steps;
     _explore_eps := explore_eps; _debug := false; _canvas := [0; 0];
     _spatial_transformer := new_spatial_transformer created;
     _inverse_transformer := fun decoded _ => map (fun _ : vec => [1; 1]) decoded;
     _transform_estimator := transform_estimator callables 4;
     _input_encoder := input_encoder callables tt;
     _glimpse_encoder := glimpse_encoder callables tt;
     _glimpse_decoder := glimpse_decoder callables [1%nat; 1%nat];
     _what_distrib := {| _n_params := 1; _scale_offset := -1;
                         pg_transform := new_what_transform created |};
     _steps_predictor := steps_predictor callables tt;
     _rnn_projection := new_rnn_projection created;
     _where_init := [0; 0; 0; 0]; _what_init := [0] |}.

(** The arguments [args] with a weight of 1/100 on the L2 term. *)
Definition args_l2 (use_reinforce : bool) (baseline : option Baseline)
  : TrainArgs := {|
  learning_rate := 1 / 10000;
  l2_weight := 1 / 100;
  appearance_prior := None;
  where_scale_prior := None;
  where_shift_prior := None;
  num_steps_prior := None;
  use_prior := false;
  use_reinforce := use_reinforce;
  arg_baseline := baseline
|}.

End Sample.

Module SampleGraph.

Import String.

(** Three trainable variables: a weight matrix and a bias of the model, and a
    weight matrix of the baseline. *)
Definition variables : list TfVariable :=
  [ {| var_name := "AIRModel/w"%string; in_baseline_scope := false;
       var_rank := 2; var_entries := [1; 2] |};
    {| var_name := "AIRModel/b"%string; in_baseline_scope := false;
       var_rank := 1; var_entries := [3] |};
    {| var_name := "BaselineMLP/w"%string; in_baseline_scope := true;
       var_rank := 2; var_entries := [4] |} ].

End SampleGraph.

(** Networks for [AIRonMNIST] on the batch [Sample.blank]: the LSTM and the
    encoders pass their input through, the other MLPs answer with zeros of
    the width asked for. *)
Module SampleMnist.

Definition networks : Networks unit := {|
  lstm := fun x h => (x, h);
  lstm_initial_state := fun _ => tt;
  inpt_encoder_mlp := fun x => x;
  glimpse_encoder_mlp := fun x => x;
  glimpse_decoder_mlp := fun n x => map (fun _ : vec => repeat 0 n) x;
  transform_estimator_mlp := fun n x => map (fun _ : vec => repeat 0 n) x;
  steps_pred_mlp := map (fun _ => 0);
  baseline_mlp := map (fun _ => 0)
|}.

End SampleMnist.

(** ** Predicates of the statements *)

Definition in_unit_interval (x : R) : Prop := 0 <= x <= 1.

(** The exploration floor, when set, is at most 1.  This holds on the
    documented range (0, 0.5) and for the floor 0.0 of
    [scripts/multi_mnist.py]. *)
Definition floor_at_most_one (explore_eps : option R) : Prop :=
  match explore_eps with
  | Some eps => eps <= 1
  | None => True
  end.

(** [a] is, entry by entry, at most [b]. *)
Definition pointwise_le (a b : vec) : Prop :=
  forall i, nth i a 0 <= nth i b 0.

(** Each tensor of the sequence is pointwise at most the one before it,
    starting from [prev]. *)
Fixpoint non_increasing_from (prev : vec) (seq : list vec) : Prop :=
  match seq with
  | [] => True
  | p :: ps => pointwise_le p prev /\ non_increasing_from p ps
  end.

(** Two tensors have the same shape. *)
Definition same_shape3 (a b : tensor3) : Prop :=
  Forall2 (Forall2 (fun r1 r2 : vec => length r1 = length r2)) a b.

(** The model with another tensor of posterior pose locations. *)
Definition with_where_loc {Hidden : Type} (m : AIRModel Hidden)
  (where_loc' : tensor3) : AIRModel Hidden := {|
  obs := obs m; nums := nums m; max_steps := max_steps m;
  glimpse_size := glimpse_size m; n_appearance := n_appearance m;
  output_std := output_std m; discrete_steps := discrete_steps m;
  explore_eps := explore_eps m; debug := debug m;
  batch_size := batch_size m; img_size := img_size m;
  Model.cell := Model.cell m;
  canvas := canvas m; glimpse := glimpse m;
  what := what m; what_loc := what_loc m;
  what_scale := what_scale m;
  where_ := where_ m; where_loc := where_loc';
  where_scale := where_scale m;
  presence_prob := presence_prob m; presence := presence m;
  final_canvas := final_canvas m;
  num_steps_distrib := num_steps_distrib m;
  num_step_per_sample := num_step_per_sample m;
  num_step := num_step m; gt_num_steps := gt_num_steps m;
  baseline := baseline m
|}.

(** A pose [(sx, tx, sy, ty)] whose scales lie in [[0, max_crop_size]] and
    whose shifts lie in [[-1, 1]]. *)
Definition pose_in_range (max_crop_size : R) (row : vec) : Prop :=
  exists sx tx sy ty,
    row = [sx; tx; sy; ty]
    /\ 0 <= sx <= max_crop_size /\ -1 <= tx <= 1
    /\ 0 <= sy <= max_crop_size /\ -1 <= ty <= 1.

(** The inverse transformer answers with rows of [n_pix] entries: the reshape
    of line 167 accepts nothing else. *)
Definition pastes_whole_images {Hidden : Type} (cell : AIRCell Hidden) : Prop :=
  forall (decoded where_code : tensor2),
    Forall (fun r : vec => length r = _n_pix cell)
           (_inverse_transformer cell decoded where_code).


(** * Verified properties *)

(** ** The cell *)

(** C8: a step of the cell returns the flattened image of the carried state
    unchanged. *)
Theorem build_keeps_image :
  forall (Hidden : Type) (cell : AIRCell Hidden) (noise : Noise) (inpt : vec)
         (state : State Hidden),
    st_image (snd (_build cell noise inpt state)) = st_image state.
Proof.
  intros Hidden cell noise inpt state.
  unfold _build.
  destruct (_transition cell _ _) as [hidden_output hidden_state].
  reflexivity.
Qed.

(** The image is the same after any number of unrolled steps. *)
Lemma dynamic_rnn_keeps_image :
  forall (Hidden : Type) (cell : AIRCell Hidden) (noise : nat -> Noise)
         (inputs : list vec) (t : nat) (state : State Hidden),
    st_image (snd (dynamic_rnn cell noise t inputs state))
    = st_image state.
Proof.
  intros Hidden cell noise inputs.
  induction inputs as [| x xs IH]; intros t state; simpl.
  - reflexivity.
  - assert (Hstep : st_image (snd (_build cell (noise t) x state))
                   = st_image state).
    { unfold _build.
      destruct (_transition cell _ _) as [hidden_output hidden_state].
      reflexivity. }
    destruct (_build cell (noise t) x state) as [o state'].
    specialize (IH (S t) state').
    destruct (dynamic_rnn cell noise (S t) xs state') as [os final].
    simpl in *. congruence.
Qed.

(** Over the reals the two additions of line 147 cancel: the forward value
    is the clipped probability. *)
Lemma explore_clip_over_reals :
  forall (p eps : R),
    explore_clip (Some eps) p = clip_by_value p eps (1 - eps).
Proof.
  intros p eps. unfold explore_clip, stop_gradient. ring.
Qed.

(** The comparison of binary32 numbers is antisymmetric. *)
Lemma SFcompare_antisym :
  forall x y c,
    SpecFloat.SFcompare x y = Some c ->
    SpecFloat.SFcompare y x = Some (CompOpp c).
Proof.
  intros [[] | [] | | [] m1 e1] [[] | [] | | [] m2 e2] c H; simpl in *;
    try discriminate; try (injection H as <-; reflexivity).
  - injection H as <-. rewrite (Z.compare_antisym e1 e2).
    destruct (e1 ?= e2)%Z; simpl; try reflexivity.
    rewrite !Pos.compare_cont_antisym. reflexivity.
  - injection H as <-. rewrite (Z.compare_antisym e1 e2).
    destruct (e1 ?= e2)%Z; simpl; try reflexivity.
    rewrite !Pos.compare_cont_antisym. reflexivity.
Qed.

Lemma not_less_of_less_equal :
  forall x y, Float32.less_equal x y = true -> Float32.less y x = false.
Proof.
  intros x y H.
  unfold Float32.less_equal, Float32.less, SpecFloat.SFleb, SpecFloat.SFltb in *.
  destruct (SpecFloat.SFcompare x y) as [c |] eqn:E; [| discriminate].
  rewrite (SFcompare_antisym x y c E).
  destruct c; simpl; try reflexivity; discriminate.
Qed.

(** In binary32 [p - p] is [+0], and adding [p] to it gives [p] back. *)
Lemma float32_sub_self_add :
  forall p, Float32.probability p = true ->
    Float32.add (Float32.sub p p) p = p.
Proof.
  intros [[] | [] | | [] m e] Hp; try discriminate Hp.
  - reflexivity.
  - unfold Float32.sub, SpecFloat.SFsub.
    rewrite Z.min_id. unfold SpecFloat.shl_align. rewrite Z.sub_diag.
    cbn [fst SpecFloat.cond_Zopp]. reflexivity.
Qed.

(** C4, as the code has it.  Over the reals the forward value of the
    straight-through clipping is the clipped probability, for every
    probability and every floor.  In binary32, the arithmetic of the graph,
    it is exactly the clipped probability whenever the probability is not
    clipped, that is, lies between the floor and one minus the floor: the
    difference [clip(p) - p] is then zero. *)
Theorem explore_clip_forward_value :
  (forall (p eps : R),
      explore_clip (Some eps) p = clip_by_value p eps (1 - eps))
  /\ (forall (p eps : Float32.float32),
         Float32.probability p = true ->
         Float32.less_equal eps p = true ->
         Float32.less_equal p (Float32.sub Float32.one eps) = true ->
         Float32.explore_clip32 (Some eps) p
         = Float32.clip_by_value32 p eps (Float32.sub Float32.one eps)).
Proof.
  split; [exact explore_clip_over_reals |].
  intros p eps Hp Hlo Hhi.
  unfold Float32.explore_clip32, Float32.clip_by_value32, Float32.minimum,
    Float32.maximum, Float32.stop_gradient32.
  rewrite (not_less_of_less_equal _ _ Hhi).
  rewrite (not_less_of_less_equal _ _ Hlo).
  exact (float32_sub_self_add p Hp).
Qed.

Lemma explore_clip_forward_value_witness :
  (Float32.probability Float32.half = true
   /\ Float32.less_equal Float32.tenth Float32.half = true
   /\ Float32.less_equal Float32.half
        (Float32.sub Float32.one Float32.tenth) = true)
  /\ Float32.explore_clip32 (Some Float32.tenth) Float32.half
     = Float32.clip_by_value32 Float32.half Float32.tenth
         (Float32.sub Float32.one Float32.tenth).
Proof.
  split; [repeat split; vm_compute; reflexivity |].
  apply (proj2 explore_clip_forward_value Float32.half Float32.tenth);
    vm_compute; reflexivity.
Defined.

(** C4, counterexample: with the floor 0.1 and the probability 0.035, both
    binary32 numbers, the clipped probability is the floor,
    13421773 * 2^-27, and the forward value of line 147 is 13421772 * 2^-27,
    one unit in the last place below it: the difference [0.1 - 0.035] and the
    sum with 0.035 are both rounded. *)
Lemma explore_clip_rounds_below_floor :
  Float32.probability Float32.thirty_five_thousandths = true
  /\ Float32.probability Float32.tenth = true
  /\ Float32.clip_by_value32 Float32.thirty_five_thousandths Float32.tenth
       (Float32.sub Float32.one Float32.tenth)
     = SpecFloat.S754_finite false 13421773 (-27)
  /\ Float32.explore_clip32 (Some Float32.tenth) Float32.thirty_five_thousandths
     = SpecFloat.S754_finite false 13421772 (-27)
  /\ Float32.explore_clip32 (Some Float32.tenth) Float32.thirty_five_thousandths
     <> Float32.clip_by_value32 Float32.thirty_five_thousandths Float32.tenth
          (Float32.sub Float32.one Float32.tenth).
Proof.
  repeat split; try (vm_compute; reflexivity).
  vm_compute. discriminate.
Qed.

(** C3, as the code has it: neither the cell nor the model inspects
    [explore_eps]; construction succeeds for every value, inside the interval
    (0, 0.5) or not, and stores it unchanged. *)
Theorem construction_accepts_every_explore_eps :
  forall (Hidden : Type) (img_size crop_size : list nat) (n_appearance : nat)
         (f : Callables Hidden) (mk : Created) (discrete_steps : bool)
         (canvas_init explore_eps : option R) (debug : bool)
         (obs nums : tensor2) (max_steps : nat) (output_std : R)
         (self_baseline : option Baseline) (noise : nat -> Noise),
    (exists cell,
        AIRCell_init img_size crop_size n_appearance f mk discrete_steps
                     canvas_init explore_eps debug = Built cell
        /\ _explore_eps cell = explore_eps)
    /\ (exists m,
           AIRModel_init obs nums img_size max_steps crop_size n_appearance f mk
                         output_std discrete_steps explore_eps debug
                         self_baseline noise = Built m
           /\ Model.explore_eps m = explore_eps
           /\ _explore_eps (Model.cell m) = explore_eps).
Proof.
  intros. split.
  - eexists. split; reflexivity.
  - unfold AIRModel_init. simpl.
    destruct (dynamic_rnn _ _ _ _ _) as [outputs state].
    eexists. repeat split.
Qed.

(** C3, counterexample: the floor 0.0 that [scripts/multi_mnist.py] passes lies
    outside (0, 0.5), and construction of the cell and of the model succeeds. *)
Lemma explore_eps_zero_is_accepted :
  ~ (0 < 0 < 1 / 2)
  /\ AIRCell_init [1%nat; 2%nat] [1%nat; 1%nat] 1 Sample.callables Sample.created
                  true None (Some 0) false
     = Built (Sample.cell true (Some 0))
  /\ AIRModel_init Sample.blank [[0; 0]] [1%nat; 2%nat] 2 [1%nat; 1%nat] 1
                   Sample.callables Sample.created 1 true (Some 0) false None
                   Sample.noise
     <> ConfigError.
Proof.
  split; [lra |]. split; [reflexivity |].
  unfold AIRModel_init.
  cbn [AIRCell_init].
  destruct (dynamic_rnn _ _ _ _ _) as [outputs state].
  discriminate.
Qed.

(** *** Cumulative presence *)

Lemma sigmoid_in_unit_interval : forall x, in_unit_interval (sigmoid x).
Proof.
  intro x. unfold in_unit_interval, sigmoid.
  pose proof (exp_pos (- x)) as He.
  assert (Hd : 0 < 1 + exp (- x)) by lra.
  split.
  - apply Rlt_le, Rdiv_lt_0_compat; lra.
  - apply (Rmult_le_reg_r (1 + exp (- x))); [exact Hd |].
    unfold Rdiv. rewrite Rmult_assoc, Rinv_l by lra. lra.
Qed.

Lemma explore_clip_in_unit_interval :
  forall explore_eps p,
    floor_at_most_one explore_eps ->
    in_unit_interval p -> in_unit_interval (explore_clip explore_eps p).
Proof.
  intros [eps |] p Heps Hp; simpl in *; [| exact Hp].
  unfold in_unit_interval, stop_gradient, clip_by_value, Rmax, Rmin in *.
  repeat destruct Rle_dec; lra.
Qed.

Lemma bernoulli_sample_cases :
  forall u p, bernoulli_sample u p = 0 \/ bernoulli_sample u p = 1.
Proof.
  intros u p. unfold bernoulli_sample. destruct (Rlt_dec u p); auto.
Qed.

Lemma Forall_zipWith :
  forall (A B C : Type) (f : A -> B -> C) (P : C -> Prop) (xs : list A)
         (ys : list B),
    (forall x y, In x xs -> In y ys -> P (f x y)) ->
    Forall P (zipWith f xs ys).
Proof.
  intros A B C f P xs.
  induction xs as [| x xs IH]; intros [| y ys] H; simpl; constructor.
  - apply H; simpl; auto.
  - apply IH. intros x' y' Hx Hy. apply H; simpl; auto.
Qed.

(** The presence probability the cell emits lies in [0, 1]. *)
Lemma presence_prob_in_unit_interval :
  forall (sp : StepsPredictor) (explore_eps : option R) (h : tensor2),
    floor_at_most_one explore_eps ->
    Forall in_unit_interval
           (map (explore_clip explore_eps) (StepsPredictor_build sp h)).
Proof.
  intros sp explore_eps h Heps.
  unfold StepsPredictor_build.
  rewrite !Forall_map. rewrite Forall_forall. intros l _.
  apply explore_clip_in_unit_interval; [exact Heps |].
  apply sigmoid_in_unit_interval.
Qed.

Lemma bernoulli_samples_binary :
  forall (u probs : vec),
    Forall (fun b => b = 0 \/ b = 1) (zipWith bernoulli_sample u probs).
Proof.
  intros u probs. apply Forall_zipWith.
  intros x y _ _. apply bernoulli_sample_cases.
Qed.

Lemma nth_in_unit_interval_nonneg :
  forall (xs : vec) (i : nat),
    Forall in_unit_interval xs -> 0 <= nth i xs 0.
Proof.
  intros xs i H. revert i.
  induction H as [| x xs Hx Hxs IH]; intros [| i]; simpl; try lra.
  - unfold in_unit_interval in Hx. lra.
  - apply IH.
Qed.

(** Gating by 0/1 samples keeps the presence in [0, 1] and does not raise
    it. *)
Lemma gated_presence :
  forall (presence bs : vec),
    Forall in_unit_interval presence ->
    Forall (fun b => b = 0 \/ b = 1) bs ->
    Forall in_unit_interval (zipWith Rmult presence bs)
    /\ forall i, nth i (zipWith Rmult presence bs) 0 <= nth i presence 0.
Proof.
  intros presence bs Hp. revert bs.
  induction Hp as [| x xs Hx Hxs IH]; intros bs Hb.
  - simpl. split; [constructor |]. intros [| i]; lra.
  - destruct Hb as [| b bs Hb Hbs]; simpl.
    + split; [constructor |].
      intros [| i]; [unfold in_unit_interval in Hx; lra |].
      apply nth_in_unit_interval_nonneg; exact Hxs.
    + destruct (IH bs Hbs) as [IH1 IH2].
      unfold in_unit_interval in Hx.
      split.
      * constructor; [| exact IH1].
        unfold in_unit_interval. destruct Hb as [-> | ->]; lra.
      * intros [| i]; [| apply IH2].
        simpl. destruct Hb as [-> | ->]; lra.
Qed.

(** One step: the presence it emits is the presence it carries on; it lies in
    [0, 1]; in discrete mode it is, sample by sample, at most the presence of
    the incoming state. *)
Lemma build_presence :
  forall (Hidden : Type) (cell : AIRCell Hidden) (noise : Noise) (inpt : vec)
         (state : State Hidden),
    floor_at_most_one (_explore_eps cell) ->
    Forall in_unit_interval (st_presence state) ->
    let out := _build cell noise inpt state in
    st_presence (snd out) = Cell.presence (fst out)
    /\ Forall in_unit_interval (Cell.presence (fst out))
    /\ (_sample_presence cell = true ->
        forall i, nth i (Cell.presence (fst out)) 0
                  <= nth i (st_presence state) 0).
Proof.
  intros Hidden cell noise inpt state Heps Hst.
  unfold _build.
  destruct (_transition cell _ _) as [hidden_output hidden_state].
  cbn [fst snd st_presence Cell.presence].
  pose proof (presence_prob_in_unit_interval
                (_steps_predictor cell) (_explore_eps cell)
                hidden_output Heps) as Hprob.
  split; [reflexivity |].
  destruct (_sample_presence cell).
  - pose proof (gated_presence (st_presence state) _ Hst
                  (bernoulli_samples_binary (u_presence noise)
                     (map (explore_clip (_explore_eps cell))
                          (StepsPredictor_build (_steps_predictor cell)
                                                hidden_output))))
      as [H1 H2].
    split; [exact H1 |]. intros _. exact H2.
  - split; [exact Hprob |]. discriminate.
Qed.

Lemma dynamic_rnn_presence :
  forall (Hidden : Type) (cell : AIRCell Hidden) (noise : nat -> Noise)
         (inputs : list vec) (t : nat) (state : State Hidden),
    floor_at_most_one (_explore_eps cell) ->
    Forall in_unit_interval (st_presence state) ->
    let outputs := fst (dynamic_rnn cell noise t inputs state) in
    Forall (fun o => Forall in_unit_interval (Cell.presence o)) outputs
    /\ (_sample_presence cell = true ->
        non_increasing_from (st_presence state)
                            (map Cell.presence outputs)).
Proof.
  intros Hidden cell noise inputs.
  induction inputs as [| x xs IH]; intros t state Heps Hst; simpl.
  - split; [constructor | intros _; exact I].
  - destruct (build_presence Hidden cell (noise t) x state Heps Hst)
      as (Hcarry & Hin & Hle).
    destruct (_build cell (noise t) x state) as [o state'].
    cbn [fst snd] in Hcarry, Hin, Hle.
    rewrite <- Hcarry in Hin.
    specialize (IH (S t) state' Heps Hin).
    destruct (dynamic_rnn cell noise (S t) xs state') as [os final].
    cbn [fst] in *. destruct IH as [IH1 IH2].
    rewrite Hcarry in Hin, IH2. split.
    + constructor; assumption.
    + intros Hd. split; [exact (Hle Hd) | exact (IH2 Hd)].
Qed.

(** C2: unrolled from the initial state, the cumulative presence the cell
    emits lies in [0, 1] at every step and for every sample, in both modes;
    in discrete mode the sequence of presence values is non-increasing, from
    the initial presence 1 on. *)
Theorem presence_bounded_and_non_increasing :
  forall (Hidden : Type) (cell : AIRCell Hidden) (noise : nat -> Noise)
         (inputs : list vec) (img : tensor2),
    floor_at_most_one (_explore_eps cell) ->
    let outputs :=
      fst (dynamic_rnn cell noise 0 inputs (initial_state cell img)) in
    Forall (fun o => Forall in_unit_interval (Cell.presence o)) outputs
    /\ (_sample_presence cell = true ->
        non_increasing_from (repeat 1 (length img))
                            (map Cell.presence outputs)).
Proof.
  intros Hidden cell noise inputs img Heps.
  apply (dynamic_rnn_presence Hidden cell noise inputs 0
           (initial_state cell img) Heps).
  simpl. apply Forall_forall. intros x Hx.
  apply repeat_spec in Hx. subst x. unfold in_unit_interval. lra.
Qed.

Lemma presence_bounded_and_non_increasing_witness :
  floor_at_most_one (_explore_eps (Sample.cell true (Some 0)))
  /\ let outputs :=
       fst (dynamic_rnn (Sample.cell true (Some 0)) Sample.noise 0
                        [[0; 0]; [0; 0]]
                        (initial_state (Sample.cell true (Some 0))
                                       Sample.blank)) in
     Forall (fun o => Forall in_unit_interval (Cell.presence o)) outputs
     /\ (_sample_presence (Sample.cell true (Some 0)) = true ->
         non_increasing_from (repeat 1 (length Sample.blank))
                             (map Cell.presence outputs)).
Proof.
  assert (H : floor_at_most_one (_explore_eps (Sample.cell true (Some 0))))
    by (simpl; lra).
  split; [exact H |].
  exact (presence_bounded_and_non_increasing unit (Sample.cell true (Some 0))
           Sample.noise [[0; 0]; [0; 0]] Sample.blank H).
Defined.

(** The sample cell in discrete mode on two blank images: the first sample is
    kept at both steps, the second is dropped at the first. *)
Example presence_of_sample_run :
  map Cell.presence
      (fst (dynamic_rnn (Sample.cell true None) Sample.noise 0
                        [[0; 0]; [0; 0]]
                        (initial_state (Sample.cell true None) Sample.blank)))
  = [[1 * 1; 1 * 0]; [1 * 1 * 1; 1 * 0 * 0]].
Proof.
  simpl. unfold bernoulli_sample, sigmoid.
  replace (1 / (1 + exp (- (0 + 0)))) with (1 / 2).
  2:{ replace (- (0 + 0)) with 0 by ring. rewrite exp_0. lra. }
  destruct (Rlt_dec (1 / 4) (1 / 2)); [| lra].
  destruct (Rlt_dec (3 / 4) (1 / 2)); [lra |].
  reflexivity.
Qed.

(** The bound on the floor is needed in soft mode: a floor of 2 turns every
    probability into 2. *)
Example explore_clip_with_floor_two :
  forall p, in_unit_interval p -> explore_clip (Some 2) p = 2.
Proof.
  intros p [H0 H1].
  unfold explore_clip, stop_gradient, clip_by_value, Rmax, Rmin.
  repeat destruct Rle_dec; lra.
Qed.

(** ** The training objective *)


(** With a step budget of 2 the posterior table of a sample has 3 entries and
    the prior table 4. *)
Example table_sizes_with_two_steps :
  max_steps (Sample.model (1 / 2) 1 Sample.pose) = 2%nat
  /\ map (@length R)
         (NumStepsDistribution_prob Sample.prior_module
            (num_steps_distrib (Sample.model (1 / 2) 1 Sample.pose)))
     = [3%nat; 3%nat]
  /\ length (num_steps_prior_table Sample.prior_module
               {| anneal := None; init := 1 / 2; final := 1 / 4;
                  steps_div := 1; steps := 1 |} 0)
     = 4%nat.
Proof. repeat split. Qed.

(** C6: without the prior term, without REINFORCE and with [l2_weight = 0],
    the objective is the reconstruction term alone: the batch mean of the
    negative log-likelihood of the image under [Normal(final_canvas,
    output_std)], summed over the pixels of each sample. *)
Theorem objective_is_reconstruction_term :
  forall (Hidden : Type) (prior : PriorModule) (m : AIRModel Hidden)
         (a : TrainArgs) (global_step : nat)
         (trainable_variables : list TfVariable),
    use_prior a = false ->
    use_reinforce a = false ->
    l2_weight a = 0 ->
    exists r,
      train_step prior m a global_step trainable_variables = Some r
      /\ opt_loss r
         = reduce_mean
             (map reduce_sum
                (zipWith (zipWith (fun c x =>
                            - normal_log_prob
                                {| loc := c; scale := output_std m |} x))
                         (final_canvas m) (obs m)))
      /\ prior_loss r = None
      /\ reinforce r = None
      /\ l2_loss r = None.
Proof.
  intros Hidden prior m a global_step tv Hprior Hreinforce Hl2.
  unfold train_step. rewrite Hprior, Hreinforce, Hl2.
  destruct (Rlt_dec 0 0) as [Hlt | _]; [lra |].
  eexists. split; [reflexivity |].
  repeat split.
Qed.

Lemma objective_is_reconstruction_term_witness :
  exists r,
    train_step Sample.prior_module (Sample.model (1 / 2) 1 Sample.pose)
               (Sample.args false false None None) 0 [] = Some r
    /\ opt_loss r
       = reduce_mean
           (map reduce_sum
              (zipWith (zipWith (fun c x =>
                          - normal_log_prob {| loc := c; scale := 1 |} x))
                       Sample.blank Sample.blank))
    /\ prior_loss r = None
    /\ reinforce r = None
    /\ l2_loss r = None.
Proof.
  exact (objective_is_reconstruction_term unit Sample.prior_module
           (Sample.model (1 / 2) 1 Sample.pose)
           (Sample.args false false None None) 0 []
           eq_refl eq_refl eq_refl).
Defined.

(** Without an appearance prior the prior loss is computed as if no pose
    prior had been supplied: the pose KL is built only inside the branch of
    the appearance prior. *)
Lemma pose_priors_ignored_without_appearance_prior :
  forall (Hidden : Type) (prior : PriorModule) (m : AIRModel Hidden)
         (where_scale_prior : option LocScale)
         (where_shift_prior : option ShiftPrior)
         (num_steps_prior : option NumStepsPrior) (global_step : nat),
    _prior_loss prior m None where_scale_prior where_shift_prior
                num_steps_prior global_step
    = _prior_loss prior m None None None num_steps_prior global_step.
Proof.
  intros. reflexivity.
Qed.

(** C7, the code at the failing input: a model that took its first step,
    the prior term enabled, pose priors supplied and no appearance prior.  The
    pose KL of each sample is 1/4, yet the prior loss has no term and the
    objective is the reconstruction loss alone. *)
Theorem pose_kl_dropped_without_appearance_prior :
  let m := Sample.model (1 / 2) 1 Sample.pose in
  let scale_prior := {| prior_loc := 1 / 2; prior_scale := 1 |} in
  let shift_prior := {| shift_loc := None; shift_scale := 1 |} in
  where_kl_per_sample m scale_prior shift_prior = [1 / 4; 1 / 4]
  /\ _prior_loss Sample.prior_module m None (Some scale_prior)
                 (Some shift_prior) None 0
     = Some Loss_new
  /\ exists r,
       train_step Sample.prior_module m (Sample.args true false None None) 0 []
       = Some r
       /\ prior_loss r = Some Loss_new
       /\ opt_loss r = rec_loss r.
Proof.
  split; [| split; [reflexivity |]].
  - unfold where_kl_per_sample, scale_kl, shift_kl, gate_by_presence. simpl.
    unfold kl_normal, reduce_sum. simpl. unfold Rsqr.
    replace (1 * 1 / (1 * 1)) with 1 by field.
    rewrite ln_1. f_equal; [field | f_equal; field].
  - unfold train_step.
    cbn [Sample.args use_prior use_reinforce l2_weight appearance_prior
         where_scale_prior where_shift_prior num_steps_prior _prior_loss].
    destruct (Rlt_dec 0 0) as [Hlt | _]; [lra |].
    eexists. split; [reflexivity |]. split; reflexivity.
Qed.

(** *** The shift component of the pose KL *)

(** Against a prior with the same mean, the KL of a Gaussian depends on the
    two scales only. *)
Lemma kl_normal_same_loc :
  forall (u s sigma : R),
    kl_normal {| loc := u; scale := s |} {| loc := u; scale := sigma |}
    = 1 / 2 * (Rsqr s / Rsqr sigma - 1 - ln (Rsqr s / Rsqr sigma)).
Proof.
  intros u s sigma. unfold kl_normal. simpl.
  replace (u - u) with 0 by ring.
  rewrite Rsqr_0. unfold Rdiv at 1. rewrite Rmult_0_l. ring.
Qed.

Lemma zipWith_same_length :
  forall (A B C : Type) (f g : A -> B -> C) (xs xs' : list A) (ys : list B),
    (forall x x' y, f x y = g x' y) ->
    length xs = length xs' ->
    zipWith f xs ys = zipWith g xs' ys.
Proof.
  intros A B C f g xs.
  induction xs as [| x xs IH]; intros [| x' xs'] [| y ys] Hfg Hlen;
    simpl in *; try reflexivity; try discriminate.
  f_equal; [apply Hfg | apply IH; [exact Hfg | congruence]].
Qed.

Lemma zipWith_Forall2 :
  forall (A B C : Type) (Q : A -> A -> Prop) (f : A -> B -> C)
         (xs xs' : list A) (ys : list B),
    (forall x x' y, Q x x' -> f x y = f x' y) ->
    Forall2 Q xs xs' ->
    zipWith f xs ys = zipWith f xs' ys.
Proof.
  intros A B C Q f xs xs' ys Hf H. revert ys.
  induction H as [| x x' xs xs' Hx Hxs IH]; intros [| y ys]; simpl;
    try reflexivity.
  f_equal; [apply Hf; exact Hx | apply IH].
Qed.

Lemma shift_kl_independent_of_locations :
  forall (Hidden : Type) (m : AIRModel Hidden) (where_loc' : tensor3)
         (where_shift_prior : ShiftPrior),
    shift_loc where_shift_prior = None ->
    same_shape3 (shift_part where_loc') (shift_part (where_loc m)) ->
    shift_kl (with_where_loc m where_loc') where_shift_prior
    = shift_kl m where_shift_prior.
Proof.
  intros Hidden m wl' wsh Hloc Hshape.
  unfold shift_kl. cbn [with_where_loc where_loc where_scale]. rewrite Hloc.
  eapply zipWith_Forall2; [| exact Hshape].
  intros x x' y Hxx'. cbv beta in Hxx'.
  eapply zipWith_Forall2; [| exact Hxx'].
  intros r r' st Hlen. cbv beta in Hlen.
  apply zipWith_same_length; [| exact Hlen].
  intros u u' s. rewrite !kl_normal_same_loc. reflexivity.
Qed.

(** C9: with no ['loc'] in [where_shift_prior], two runs of the prior loss that
    differ in the posterior shift locations only yield the same shift KL, and
    the same prior loss altogether. *)
Theorem shift_kl_ignores_posterior_shift_mean :
  forall (Hidden : Type) (prior : PriorModule) (m : AIRModel Hidden)
         (where_loc' : tensor3) (appearance_prior where_scale_prior : option LocScale)
         (where_shift_prior : ShiftPrior)
         (num_steps_prior : option NumStepsPrior) (global_step : nat),
    shift_loc where_shift_prior = None ->
    scale_part where_loc' = scale_part (where_loc m) ->
    same_shape3 (shift_part where_loc') (shift_part (where_loc m)) ->
    shift_kl (with_where_loc m where_loc') where_shift_prior
    = shift_kl m where_shift_prior
    /\ _prior_loss prior (with_where_loc m where_loc') appearance_prior
                   where_scale_prior (Some where_shift_prior) num_steps_prior
                   global_step
       = _prior_loss prior m appearance_prior where_scale_prior
                     (Some where_shift_prior) num_steps_prior global_step.
Proof.
  intros Hidden prior m wl' ap wsc wsh nsp gs Hloc Hscale Hshape.
  pose proof (shift_kl_independent_of_locations Hidden m wl' wsh Hloc Hshape)
    as Hshift.
  split; [exact Hshift |].
  unfold _prior_loss.
  destruct ap as [ap |]; [| reflexivity].
  destruct wsc as [wsc |]; [| reflexivity].
  replace (where_kl_per_sample (with_where_loc m wl') wsc wsh)
    with (where_kl_per_sample m wsc wsh); [reflexivity |].
  unfold where_kl_per_sample. rewrite Hshift.
  unfold scale_kl. cbn [with_where_loc where_loc where_scale presence].
  rewrite Hscale. reflexivity.
Qed.

Lemma shift_kl_ignores_posterior_shift_mean_witness :
  shift_kl
           (with_where_loc (Sample.model (1 / 2) 1 Sample.pose)
                           Sample.pose_shifted)
           {| shift_loc := None; shift_scale := 1 |}
  = shift_kl (Sample.model (1 / 2) 1 Sample.pose)
             {| shift_loc := None; shift_scale := 1 |}
  /\ _prior_loss Sample.prior_module
                 (with_where_loc (Sample.model (1 / 2) 1 Sample.pose)
                                 Sample.pose_shifted)
                 (Some {| prior_loc := 0; prior_scale := 1 |})
                 (Some {| prior_loc := 1 / 2; prior_scale := 1 |})
                 (Some {| shift_loc := None; shift_scale := 1 |}) None 0
     = _prior_loss Sample.prior_module
                   (Sample.model (1 / 2) 1 Sample.pose)
                   (Some {| prior_loc := 0; prior_scale := 1 |})
                   (Some {| prior_loc := 1 / 2; prior_scale := 1 |})
                   (Some {| shift_loc := None; shift_scale := 1 |}) None 0.
Proof.
  apply (shift_kl_ignores_posterior_shift_mean unit Sample.prior_module
           (Sample.model (1 / 2) 1 Sample.pose) Sample.pose_shifted).
  - reflexivity.
  - reflexivity.
  - repeat constructor.
Defined.

(** *** The annealing schedule of the num-steps prior *)

Lemma exp_le : forall x y, x <= y -> exp x <= exp y.
Proof.
  intros x y [Hlt | ->]; [left; apply exp_increasing; exact Hlt | right; reflexivity].
Qed.








(** *** REINFORCE *)


(** Without the prior term the training step succeeds, and its total loss is
    the reconstruction loss. *)
Lemma train_step_without_prior :
  forall (Hidden : Type) (prior : PriorModule) (m : AIRModel Hidden)
         (a : TrainArgs) (global_step : nat)
         (trainable_variables : list TfVariable),
    use_prior a = false ->
    exists r,
      train_step prior m a global_step trainable_variables = Some r
      /\ loss r
         = Loss_add Loss_new
                    (reduce_mean (reconstruction_loss_per_sample m))
                    (reconstruction_loss_per_sample m)
      /\ (l2_weight a <= 0 -> l2_loss r = None).
Proof.
  intros Hidden prior m a gs tv Hprior.
  unfold train_step. rewrite Hprior.
  eexists. split; [reflexivity |]. cbn [loss l2_loss]. split; [reflexivity |].
  intros Hl2. destruct (Rlt_dec 0 (l2_weight a)); [lra | reflexivity].
Qed.




(** * Further properties of the code *)

(** ** The cell, step by step *)

Lemma zipWith_nth_error :
  forall (A B C : Type) (f : A -> B -> C) (xs : list A) (ys : list B)
         (i : nat) (z : C),
    nth_error (zipWith f xs ys) i = Some z ->
    exists x y,
      nth_error xs i = Some x /\ nth_error ys i = Some y /\ z = f x y.
Proof.
  intros A B C f xs.
  induction xs as [| x xs IH]; intros [| y ys] [| i] z H; simpl in H;
    try discriminate.
  - injection H as <-. exists x, y. repeat split.
  - apply IH in H. exact H.
Qed.

Lemma zipWith_length :
  forall (A B C : Type) (f : A -> B -> C) (xs : list A) (ys : list B),
    length (zipWith f xs ys) = Nat.min (length xs) (length ys).
Proof.
  intros A B C f xs.
  induction xs as [| x xs IH]; intros [| y ys]; simpl; try reflexivity.
  rewrite IH. reflexivity.
Qed.

Lemma zipWith_Rmult_zero :
  forall (xs bs : vec) (i : nat),
    nth i xs 0 = 0 -> nth i (zipWith Rmult xs bs) 0 = 0.
Proof.
  induction xs as [| p ps IH]; intros [| b bs] [| i] H; simpl in *;
    try reflexivity.
  - subst p. ring.
  - apply IH. exact H.
Qed.

Lemma zipWith_Rmult_binary :
  forall (xs bs : vec),
    Forall (fun p => p = 0 \/ p = 1) xs ->
    Forall (fun b => b = 0 \/ b = 1) bs ->
    Forall (fun p => p = 0 \/ p = 1) (zipWith Rmult xs bs).
Proof.
  intros xs bs Hp Hb. apply Forall_zipWith.
  intros x y Hx Hy.
  rewrite Forall_forall in Hp, Hb.
  destruct (Hp x Hx) as [-> | ->]; destruct (Hb y Hy) as [-> | ->];
    [left | left | left | right]; ring.
Qed.

(** In discrete mode a step keeps a 0/1 presence 0/1, and keeps a presence of
    0 at 0. *)
Lemma build_discrete_presence :
  forall (Hidden : Type) (cell : AIRCell Hidden) (noise : Noise) (inpt : vec)
         (state : State Hidden),
    _sample_presence cell = true ->
    let out := _build cell noise inpt state in
    st_presence (snd out) = Cell.presence (fst out)
    /\ (Forall (fun p => p = 0 \/ p = 1) (st_presence state) ->
        Forall (fun p => p = 0 \/ p = 1) (Cell.presence (fst out)))
    /\ (forall i, nth i (st_presence state) 0 = 0 ->
                  nth i (Cell.presence (fst out)) 0 = 0).
Proof.
  intros Hidden cell noise inpt state Hd.
  unfold _build.
  destruct (_transition cell _ _) as [hidden_output hidden_state].
  cbn [fst snd st_presence Cell.presence]. rewrite Hd.
  split; [reflexivity |]. split.
  - intros Hb. apply zipWith_Rmult_binary; [exact Hb |].
    apply bernoulli_samples_binary.
  - intros i Hi. apply zipWith_Rmult_zero. exact Hi.
Qed.

Lemma dynamic_rnn_binary_presence :
  forall (Hidden : Type) (cell : AIRCell Hidden) (noise : nat -> Noise)
         (inputs : list vec) (t : nat) (state : State Hidden),
    _sample_presence cell = true ->
    Forall (fun p => p = 0 \/ p = 1) (st_presence state) ->
    Forall (fun o => Forall (fun p => p = 0 \/ p = 1) (Cell.presence o))
           (fst (dynamic_rnn cell noise t inputs state)).
Proof.
  intros Hidden cell noise inputs t state Hd. revert t state.
  induction inputs as [| x xs IH]; intros t state Hst; simpl.
  - constructor.
  - destruct (build_discrete_presence Hidden cell (noise t) x state Hd)
      as (Hcarry & Hbin & _).
    destruct (_build cell (noise t) x state) as [o state'].
    cbn [fst snd] in Hcarry, Hbin.
    specialize (Hbin Hst).
    specialize (IH (S t) state').
    destruct (dynamic_rnn cell noise (S t) xs state') as [os final].
    cbn [fst] in *. constructor; [exact Hbin |].
    apply IH. rewrite Hcarry. exact Hbin.
Qed.

Lemma initial_presence_binary :
  forall (Hidden : Type) (cell : AIRCell Hidden) (img : tensor2),
    Forall (fun p => p = 0 \/ p = 1) (st_presence (initial_state cell img)).
Proof.
  intros Hidden cell img. simpl. apply Forall_forall. intros x Hx.
  apply repeat_spec in Hx. right. exact Hx.
Qed.

(** X1: in discrete mode every presence value the unrolled cell emits is 0 or
    1, whatever the exploration floor. *)
Theorem discrete_presence_is_binary :
  forall (Hidden : Type) (cell : AIRCell Hidden) (noise : nat -> Noise)
         (inputs : list vec) (img : tensor2),
    _sample_presence cell = true ->
    Forall (fun o => Forall (fun p => p = 0 \/ p = 1) (Cell.presence o))
           (fst (dynamic_rnn cell noise 0 inputs (initial_state cell img))).
Proof.
  intros Hidden cell noise inputs img Hd.
  apply dynamic_rnn_binary_presence; [exact Hd |].
  apply initial_presence_binary.
Qed.

Lemma discrete_presence_is_binary_witness :
  Forall (fun o => Forall (fun p => p = 0 \/ p = 1) (Cell.presence o))
         (fst (dynamic_rnn (Sample.cell true (Some 2)) Sample.noise 0
                           [[0; 0]; [0; 0]]
                           (initial_state (Sample.cell true (Some 2))
                                          Sample.blank))).
Proof.
  exact (discrete_presence_is_binary unit (Sample.cell true (Some 2))
           Sample.noise [[0; 0]; [0; 0]] Sample.blank eq_refl).
Defined.

(** X2: in discrete mode a sample whose presence is 0 in the carried state has
    presence 0 at every later step. *)
Theorem zero_presence_is_absorbing :
  forall (Hidden : Type) (cell : AIRCell Hidden) (noise : nat -> Noise)
         (inputs : list vec) (t : nat) (state : State Hidden) (i : nat),
    _sample_presence cell = true ->
    nth i (st_presence state) 0 = 0 ->
    Forall (fun o => nth i (Cell.presence o) 0 = 0)
           (fst (dynamic_rnn cell noise t inputs state)).
Proof.
  intros Hidden cell noise inputs t state i Hd. revert t state.
  induction inputs as [| x xs IH]; intros t state Hst; simpl.
  - constructor.
  - destruct (build_discrete_presence Hidden cell (noise t) x state Hd)
      as (Hcarry & _ & Hzero).
    destruct (_build cell (noise t) x state) as [o state'].
    cbn [fst snd] in Hcarry, Hzero.
    specialize (Hzero i Hst).
    specialize (IH (S t) state').
    destruct (dynamic_rnn cell noise (S t) xs state') as [os final].
    cbn [fst] in *. constructor; [exact Hzero |].
    apply IH. rewrite Hcarry. exact Hzero.
Qed.

Lemma zero_presence_is_absorbing_witness :
  Forall (fun o => nth 1 (Cell.presence o) 0 = 0)
         (fst (dynamic_rnn (Sample.cell true None) Sample.noise 0
                           [[0; 0]; [0; 0]; [0; 0]] Sample.dropped_state)).
Proof.
  exact (zero_presence_is_absorbing unit (Sample.cell true None) Sample.noise
           [[0; 0]; [0; 0]; [0; 0]] 0 Sample.dropped_state 1 eq_refl eq_refl).
Defined.

Lemma zipWith_Rplus_zero_scaled :
  forall (row inv : vec),
    zipWith Rplus row (map (Rmult 0) inv) = firstn (length inv) row.
Proof.
  induction row as [| x row IH]; intros [| y inv]; simpl; try reflexivity.
  rewrite IH. f_equal. ring.
Qed.

Lemma build_canvas_row :
  forall (Hidden : Type) (cell : AIRCell Hidden) (noise : Noise) (inpt : vec)
         (state : State Hidden) (i : nat) (row' : vec),
    let out := _build cell noise inpt state in
    pastes_whole_images cell ->
    nth_error (Cell.canvas (fst out)) i = Some row' ->
    nth i (Cell.presence (fst out)) 0 = 0 ->
    exists row,
      nth_error (st_canvas state) i = Some row
      /\ row' = firstn (_n_pix cell) row.
Proof.
  intros Hidden cell noise inpt state i row'.
  unfold _build.
  destruct (_transition cell _ _) as [hidden_output hidden_state].
  cbn [fst snd Cell.canvas Cell.presence].
  set (presence' := if _sample_presence cell then _ else _).
  intros Hinv Hrow Hzero.
  unfold add2, scale_rows in Hrow.
  apply zipWith_nth_error in Hrow.
  destruct Hrow as (row & scaled & Hold & Hscaled & ->).
  apply zipWith_nth_error in Hscaled.
  destruct Hscaled as (p & inv & Hp & Hpaste & ->).
  exists row. split; [exact Hold |].
  apply (nth_error_nth _ _ 0) in Hp. rewrite Hzero in Hp. subst p.
  rewrite zipWith_Rplus_zero_scaled.
  apply nth_error_In in Hpaste.
  pose proof (proj1 (Forall_forall _ _) (Hinv _ _) inv Hpaste) as Hlen.
  simpl in Hlen. rewrite Hlen. reflexivity.
Qed.

Lemma shaped_cell_pastes_whole_images :
  forall discrete_steps explore_eps,
    pastes_whole_images (Sample.shaped_cell discrete_steps explore_eps).
Proof.
  intros discrete_steps explore_eps decoded where_code. simpl.
  apply Forall_forall. intros r Hr.
  apply in_map_iff in Hr. destruct Hr as (x & <- & _). reflexivity.
Qed.

(** X3: a step leaves the canvas of a sample whose emitted presence is 0 as
    it was.  The inverse transformer pastes rows of [n_pix] entries, the
    shape line 167 insists on; the canvas row of the sample, of [n_pix]
    entries, is then the row of the new canvas, entry for entry. *)
Theorem canvas_unchanged_without_presence :
  forall (Hidden : Type) (cell : AIRCell Hidden) (noise : Noise) (inpt : vec)
         (state : State Hidden) (i : nat) (row row' : vec),
    let out := _build cell noise inpt state in
    pastes_whole_images cell ->
    nth_error (st_canvas state) i = Some row ->
    length row = _n_pix cell ->
    nth_error (Cell.canvas (fst out)) i = Some row' ->
    nth i (Cell.presence (fst out)) 0 = 0 ->
    row' = row.
Proof.
  intros Hidden cell noise inpt state i row row' out Hinv Hold Hlen Hrow Hzero.
  destruct (build_canvas_row Hidden cell noise inpt state i row' Hinv Hrow
              Hzero) as (row0 & Hrow0 & ->).
  rewrite Hold in Hrow0. injection Hrow0 as <-.
  rewrite <- Hlen. apply firstn_all.
Qed.

Lemma canvas_unchanged_without_presence_witness :
  let cell := Sample.shaped_cell true None in
  let out := _build cell (Sample.noise 0) [0; 0] Sample.dropped_state in
  exists row',
    (pastes_whole_images cell
     /\ nth_error (st_canvas Sample.dropped_state) 1 = Some [1 / 4; 1 / 4]
     /\ length [1 / 4; 1 / 4] = _n_pix cell
     /\ nth_error (Cell.canvas (fst out)) 1 = Some row'
     /\ nth 1 (Cell.presence (fst out)) 0 = 0)
    /\ row' = [1 / 4; 1 / 4].
Proof.
  intros cell out.
  pose proof (shaped_cell_pastes_whole_images true None) as Hinv.
  destruct (nth_error (Cell.canvas (fst out)) 1) as [row' |] eqn:E.
  - assert (Hz : nth 1 (Cell.presence (fst out)) 0 = 0) by (simpl; ring).
    exists row'.
    split; [repeat split; [exact Hinv | exact Hz] |].
    exact (canvas_unchanged_without_presence unit cell (Sample.noise 0) [0; 0]
             Sample.dropped_state 1 [1 / 4; 1 / 4] row' Hinv eq_refl eq_refl
             E Hz).
  - simpl in E. discriminate E.
Defined.

Lemma softplus_nonneg : forall x, 0 <= softplus x.
Proof.
  intro x. unfold softplus. rewrite <- ln_1.
  pose proof (exp_pos x). apply Rlt_le, ln_increasing; lra.
Qed.

Lemma Forall2_zipWith :
  forall (A B C : Type) (f : A -> B -> C) (P : C -> Prop),
    (forall x y, P (f x y)) ->
    forall (a : list (list A)) (b : list (list B)),
      Forall (Forall P) (zipWith (zipWith f) a b).
Proof.
  intros A B C f P H a b.
  apply Forall_zipWith. intros x y _ _.
  apply Forall_zipWith. intros x' y' _ _. apply H.
Qed.

Lemma build_scales_not_negative :
  forall (Hidden : Type) (cell : AIRCell Hidden) (noise : Noise) (inpt : vec)
         (state : State Hidden),
    let out := fst (_build cell noise inpt state) in
    Forall (Forall (fun s => 0 <= s)) (Cell.where_scale out)
    /\ Forall (Forall (fun s => 0 <= s)) (Cell.what_scale out).
Proof.
  intros Hidden cell noise inpt state.
  unfold _build.
  destruct (_transition cell _ _) as [hidden_output hidden_state].
  cbn [fst Cell.where_scale Cell.what_scale].
  split.
  - rewrite Forall_map.
    eapply Forall_impl;
      [| apply (Forall2_zipWith _ _ _ NormalWithSoftplusScale
                  (fun d => 0 <= scale d))].
    + intros row Hrow. rewrite Forall_map. exact Hrow.
    + intros l s. simpl. apply softplus_nonneg.
  - unfold ParametrisedGaussian_build.
    rewrite !Forall_map. apply Forall_forall. intros row _.
    destruct (split2 row) as [l s].
    rewrite Forall_map. apply Forall_zipWith.
    intros li si _ _. simpl. apply softplus_nonneg.
Qed.

(** X4: no scale of the where- and what-distributions that a step emits is
    negative, for any sub-networks and any state: each is the softplus of a
    raw value. *)
Theorem emitted_scales_are_not_negative :
  forall (Hidden : Type) (cell : AIRCell Hidden) (noise : Noise) (inpt : vec)
         (state : State Hidden),
    let out := fst (_build cell noise inpt state) in
    Forall (Forall (fun s => 0 <= s)) (Cell.where_scale out)
    /\ Forall (Forall (fun s => 0 <= s)) (Cell.what_scale out).
Proof.
  intros Hidden cell noise inpt state.
  exact (build_scales_not_negative Hidden cell noise inpt state).
Qed.

Lemma explore_clip_nonpositive_floor :
  forall (eps p : R),
    eps <= 0 -> in_unit_interval p -> explore_clip (Some eps) p = p.
Proof.
  intros eps p Heps [H0 H1].
  unfold explore_clip, stop_gradient, clip_by_value, Rmax, Rmin.
  repeat destruct Rle_dec; lra.
Qed.

(** X6: a floor of 0.0, the value [scripts/multi_mnist.py] passes, or any
    floor that is not positive, switches exploration off: the cell steps
    exactly as the cell built without a floor. *)
Theorem nonpositive_floor_is_no_floor :
  forall (Hidden : Type) (img_size crop_size : list nat) (n_appearance : nat)
         (f : Callables Hidden) (mk : Created) (discrete_steps : bool)
         (canvas_init : option R) (debug : bool) (eps : R)
         (with_floor without_floor : AIRCell Hidden),
    eps <= 0 ->
    AIRCell_init img_size crop_size n_appearance f mk discrete_steps
                 canvas_init (Some eps) debug = Built with_floor ->
    AIRCell_init img_size crop_size n_appearance f mk discrete_steps
                 canvas_init None debug = Built without_floor ->
    forall (noise : Noise) (inpt : vec) (state : State Hidden),
      _build with_floor noise inpt state
      = _build without_floor noise inpt state.
Proof.
  intros Hidden img_size crop_size n_appearance f mk discrete_steps canvas_init
         debug eps c0 cN Heps H0 HN noise inpt state.
  unfold AIRCell_init in H0, HN.
  injection H0 as <-. injection HN as <-.
  unfold _build.
  cbn [_transition _input_encoder _rnn_projection _transform_estimator
       _spatial_transformer _steps_predictor _explore_eps _sample_presence
       _glimpse_encoder _what_distrib _glimpse_decoder _inverse_transformer].
  destruct (transition f _ _) as [hidden_output hidden_state].
  assert (Hmap :
    map (explore_clip (Some eps))
        (StepsPredictor_build (steps_predictor f tt) hidden_output)
    = map (explore_clip None)
          (StepsPredictor_build (steps_predictor f tt) hidden_output)).
  { unfold StepsPredictor_build. rewrite !map_map.
    apply map_ext. intros l.
    apply explore_clip_nonpositive_floor; [exact Heps |].
    apply sigmoid_in_unit_interval. }
  rewrite Hmap. reflexivity.
Qed.

Lemma nonpositive_floor_is_no_floor_witness :
  0 <= 0
  /\ _build (Sample.cell true (Some 0)) (Sample.noise 0) [0; 0]
            Sample.dropped_state
     = _build (Sample.cell true None) (Sample.noise 0) [0; 0]
              Sample.dropped_state.
Proof.
  assert (H : 0 <= 0) by lra.
  split; [exact H |].
  exact (nonpositive_floor_is_no_floor unit [1%nat; 2%nat] [1%nat; 1%nat] 1
           Sample.callables Sample.created true None false 0
           (Sample.cell true (Some 0)) (Sample.cell true None)
           H eq_refl eq_refl (Sample.noise 0) [0; 0] Sample.dropped_state).
Defined.

(** ** The unrolled cell and the model built from it *)

Lemma dynamic_rnn_length :
  forall (Hidden : Type) (cell : AIRCell Hidden) (noise : nat -> Noise)
         (inputs : list vec) (t : nat) (state : State Hidden),
    length (fst (dynamic_rnn cell noise t inputs state)) = length inputs.
Proof.
  intros Hidden cell noise inputs.
  induction inputs as [| x xs IH]; intros t state; simpl.
  - reflexivity.
  - destruct (_build cell (noise t) x state) as [o state'].
    specialize (IH (S t) state').
    destruct (dynamic_rnn cell noise (S t) xs state') as [os final].
    simpl in *. rewrite IH. reflexivity.
Qed.

(** What [AIRModel._build] makes of the unrolled cell. *)
Lemma AIRModel_init_outputs :
  forall (Hidden : Type) (obs nums : tensor2) (img_size : list nat)
         (max_steps : nat) (glimpse_size : list nat) (n_appearance : nat)
         (f : Callables Hidden) (mk : Created) (output_std : R)
         (discrete_steps : bool) (explore_eps : option R) (debug : bool)
         (self_baseline : option Baseline) (noise : nat -> Noise)
         (m : AIRModel Hidden),
    AIRModel_init obs nums img_size max_steps glimpse_size n_appearance f mk
                  output_std discrete_steps explore_eps debug self_baseline
                  noise = Built m ->
    exists cell outputs,
      AIRCell_init img_size glimpse_size n_appearance f mk discrete_steps None
                   explore_eps debug = Built cell
      /\ outputs
         = fst (dynamic_rnn cell noise 0
                  (repeat (repeat 0 (length obs)) max_steps)
                  (initial_state cell obs))
      /\ Model.cell m = cell
      /\ Model.presence m = map Cell.presence outputs
      /\ Model.presence_prob m = map Cell.presence_prob outputs
      /\ Model.canvas m = map Cell.canvas outputs
      /\ Model.where_loc m = map Cell.where_loc outputs
      /\ Model.where_scale m = map Cell.where_scale outputs
      /\ Model.what_scale m = map Cell.what_scale outputs
      /\ Model.num_step_per_sample m
         = reduce_sum_axis0 (map Cell.presence outputs)
      /\ Model.max_steps m = max_steps
      /\ Model.baseline m = self_baseline.
Proof.
  intros Hidden obs nums img_size max_steps glimpse_size n_appearance f mk
         output_std discrete_steps explore_eps debug self_baseline noise m.
  unfold AIRModel_init.
  destruct (AIRCell_init _ _ _ _ _ _ _ _ _) as [cell |] eqn:Hcell;
    [| discriminate].
  destruct (dynamic_rnn _ _ _ _ _) as [outputs state] eqn:Hrun.
  intros H. injection H as <-.
  exists cell, outputs. rewrite Hrun. cbn. repeat split; reflexivity.
Qed.

(** X7: the model holds exactly [max_steps] steps of every output of the
    cell. *)
Theorem model_has_max_steps_steps :
  forall (Hidden : Type) (obs nums : tensor2) (img_size : list nat)
         (max_steps : nat) (glimpse_size : list nat) (n_appearance : nat)
         (f : Callables Hidden) (mk : Created) (output_std : R)
         (discrete_steps : bool) (explore_eps : option R) (debug : bool)
         (self_baseline : option Baseline) (noise : nat -> Noise)
         (m : AIRModel Hidden),
    AIRModel_init obs nums img_size max_steps glimpse_size n_appearance f mk
                  output_std discrete_steps explore_eps debug self_baseline
                  noise = Built m ->
    length (Model.canvas m) = max_steps
    /\ length (Model.presence m) = max_steps
    /\ length (Model.presence_prob m) = max_steps
    /\ length (Model.where_loc m) = max_steps
    /\ length (Model.where_scale m) = max_steps
    /\ length (Model.what_scale m) = max_steps.
Proof.
  intros Hidden obs nums img_size max_steps glimpse_size n_appearance f mk
         output_std discrete_steps explore_eps debug self_baseline noise m H.
  apply AIRModel_init_outputs in H.
  destruct H as (cell & outputs & _ & Hout & _ & Hp & Hpp & Hc & Hwl & Hws
                 & Hwhs & _).
  assert (Hlen : length outputs = max_steps).
  { rewrite Hout, dynamic_rnn_length. apply repeat_length. }
  rewrite Hp, Hpp, Hc, Hwl, Hws, Hwhs, !length_map.
  repeat split; exact Hlen.
Qed.

Lemma AIRModel_init_succeeds :
  forall (Hidden : Type) (obs nums : tensor2) (img_size : list nat)
         (max_steps : nat) (glimpse_size : list nat) (n_appearance : nat)
         (f : Callables Hidden) (mk : Created) (output_std : R)
         (discrete_steps : bool) (explore_eps : option R) (debug : bool)
         (self_baseline : option Baseline) (noise : nat -> Noise),
    exists m,
      AIRModel_init obs nums img_size max_steps glimpse_size n_appearance f mk
                    output_std discrete_steps explore_eps debug self_baseline
                    noise = Built m.
Proof.
  intros. unfold AIRModel_init. cbn [AIRCell_init].
  destruct (dynamic_rnn _ _ _ _ _) as [outputs state].
  eexists. reflexivity.
Qed.

Lemma model_has_max_steps_steps_witness :
  exists m,
    AIRModel_init Sample.blank [[0; 0]] [1%nat; 2%nat] 3 [1%nat; 1%nat] 1
                  Sample.callables Sample.created 1 true None false None
                  Sample.noise = Built m
    /\ length (Model.canvas m) = 3%nat
    /\ length (Model.presence m) = 3%nat
    /\ length (Model.presence_prob m) = 3%nat
    /\ length (Model.where_loc m) = 3%nat
    /\ length (Model.where_scale m) = 3%nat
    /\ length (Model.what_scale m) = 3%nat.
Proof.
  destruct (AIRModel_init_succeeds unit Sample.blank [[0; 0]] [1%nat; 2%nat] 3
              [1%nat; 1%nat] 1 Sample.callables Sample.created 1 true None
              false None Sample.noise) as [m Hm].
  exists m. split; [exact Hm |].
  exact (model_has_max_steps_steps unit Sample.blank [[0; 0]] [1%nat; 2%nat] 3
           [1%nat; 1%nat] 1 Sample.callables Sample.created 1 true None
           false None Sample.noise m Hm).
Defined.

Lemma build_carries_canvas :
  forall (Hidden : Type) (cell : AIRCell Hidden) (noise : Noise) (inpt : vec)
         (state : State Hidden),
    st_canvas (snd (_build cell noise inpt state))
    = Cell.canvas (fst (_build cell noise inpt state)).
Proof.
  intros Hidden cell noise inpt state. unfold _build.
  destruct (_transition cell _ _) as [hidden_output hidden_state].
  reflexivity.
Qed.

Lemma dynamic_rnn_frozen_canvas :
  forall (Hidden : Type) (cell : AIRCell Hidden) (noise : nat -> Noise)
         (i : nat) (row : vec) (inputs : list vec) (t : nat)
         (state : State Hidden),
    _sample_presence cell = true ->
    pastes_whole_images cell ->
    length row = _n_pix cell ->
    nth i (st_presence state) 0 = 0 ->
    (forall row0, nth_error (st_canvas state) i = Some row0 -> row0 = row) ->
    Forall (fun o =>
              forall row',
                nth_error (Cell.canvas o) i = Some row' -> row' = row)
           (fst (dynamic_rnn cell noise t inputs state)).
Proof.
  intros Hidden cell noise i row inputs t state Hd Hinv Hlen. revert t state.
  induction inputs as [| x xs IH]; intros t state Hzero Hsame; simpl.
  - constructor.
  - destruct (build_discrete_presence Hidden cell (noise t) x state Hd)
      as (Hcarry & _ & Hkeep).
    pose proof (build_carries_canvas Hidden cell (noise t) x state) as Hcanvas.
    pose proof (build_canvas_row Hidden cell (noise t) x state i) as Hstep.
    destruct (_build cell (noise t) x state) as [o state'].
    cbn [fst snd] in Hcarry, Hkeep, Hcanvas, Hstep.
    specialize (Hkeep i Hzero).
    specialize (IH (S t) state').
    destruct (dynamic_rnn cell noise (S t) xs state') as [os final].
    cbn [fst] in *.
    assert (Hfirst : forall row',
               nth_error (Cell.canvas o) i = Some row' -> row' = row).
    { intros row' Hrow'.
      destruct (Hstep row' Hinv Hrow' Hkeep) as (row0 & Hrow0 & ->).
      rewrite (Hsame row0 Hrow0). rewrite <- Hlen. apply firstn_all. }
    constructor; [exact Hfirst |].
    apply IH.
    + rewrite Hcarry. exact Hkeep.
    + rewrite Hcanvas. exact Hfirst.
Qed.

(** X8: in discrete mode the canvas of a dropped sample is frozen.  With an
    inverse transformer that pastes rows of [n_pix] entries, once the
    presence of a sample is 0 in the carried state, its canvas row at every
    later step is the row of that state, entry for entry. *)
Theorem dropped_sample_canvas_is_frozen :
  forall (Hidden : Type) (cell : AIRCell Hidden) (noise : nat -> Noise)
         (inputs : list vec) (t : nat) (state : State Hidden) (i : nat)
         (row : vec),
    _sample_presence cell = true ->
    pastes_whole_images cell ->
    nth i (st_presence state) 0 = 0 ->
    nth_error (st_canvas state) i = Some row ->
    length row = _n_pix cell ->
    Forall (fun o =>
              forall row',
                nth_error (Cell.canvas o) i = Some row' -> row' = row)
           (fst (dynamic_rnn cell noise t inputs state)).
Proof.
  intros Hidden cell noise inputs t state i row Hd Hinv Hzero Hrow Hlen.
  apply dynamic_rnn_frozen_canvas;
    [exact Hd | exact Hinv | exact Hlen | exact Hzero |].
  intros row0 Hrow0. rewrite Hrow in Hrow0. injection Hrow0 as <-.
  reflexivity.
Qed.

Lemma dropped_sample_canvas_is_frozen_witness :
  let cell := Sample.shaped_cell true None in
  (_sample_presence cell = true
   /\ pastes_whole_images cell
   /\ nth 1 (st_presence Sample.dropped_state) 0 = 0
   /\ nth_error (st_canvas Sample.dropped_state) 1 = Some [1 / 4; 1 / 4]
   /\ length [1 / 4; 1 / 4] = _n_pix cell)
  /\ Forall (fun o =>
               forall row',
                 nth_error (Cell.canvas o) 1 = Some row' ->
                 row' = [1 / 4; 1 / 4])
            (fst (dynamic_rnn cell Sample.noise 0
                              [[0; 0]; [0; 0]; [0; 0]] Sample.dropped_state)).
Proof.
  intro cell.
  pose proof (shaped_cell_pastes_whole_images true None) as Hinv.
  split; [repeat split; exact Hinv |].
  exact (dropped_sample_canvas_is_frozen unit cell Sample.noise
           [[0; 0]; [0; 0]; [0; 0]] 0 Sample.dropped_state 1
           [1 / 4; 1 / 4] eq_refl Hinv eq_refl eq_refl eq_refl).
Defined.

(** *** The number of steps taken *)

Lemma fold_zipWith_Rplus_bounds :
  forall (rows : tensor2) (acc : vec) (k : R),
    Forall (fun x => 0 <= x <= k) acc ->
    Forall (Forall in_unit_interval) rows ->
    Forall (fun x => 0 <= x <= k + INR (length rows))
           (fold_left (zipWith Rplus) rows acc).
Proof.
  induction rows as [| r rows IH]; intros acc k Hacc Hrows.
  - simpl. eapply Forall_impl; [| exact Hacc].
    intros x Hx. cbv beta in Hx. lra.
  - inversion Hrows as [| r' rows' Hr Hrest]; subst.
    cbn [fold_left]. 
    assert (Hstep : Forall (fun x => 0 <= x <= k + 1) (zipWith Rplus acc r)).
    { apply Forall_zipWith. intros x y Hx Hy.
      rewrite Forall_forall in Hacc, Hr.
      specialize (Hacc x Hx). specialize (Hr y Hy).
      unfold in_unit_interval in Hr. lra. }
    specialize (IH _ _ Hstep Hrest).
    eapply Forall_impl; [| exact IH].
    intros x Hx. cbv beta in Hx.
    change (length (r :: rows)) with (S (length rows)).
    rewrite S_INR. lra.
Qed.

Lemma reduce_sum_axis0_bounds :
  forall (t : tensor2),
    Forall (Forall in_unit_interval) t ->
    Forall (fun x => 0 <= x <= INR (length t)) (reduce_sum_axis0 t).
Proof.
  intros [| r rows] H; simpl reduce_sum_axis0.
  - constructor.
  - inversion H as [| r' rows' Hr Hrest]; subst.
    assert (Hacc : Forall (fun x => 0 <= x <= 1) r) by exact Hr.
    pose proof (fold_zipWith_Rplus_bounds rows r 1 Hacc Hrest) as Hb.
    eapply Forall_impl; [| exact Hb].
    intros x Hx. cbv beta in Hx.
    change (length (r :: rows)) with (S (length rows)).
    rewrite S_INR. lra.
Qed.

(** X9: for a model whose exploration floor, if any, is at most 1, the number
    of steps taken by each sample, the sum of its presence values, lies
    between 0 and [max_steps]. *)
Theorem num_steps_within_budget :
  forall (Hidden : Type) (obs nums : tensor2) (img_size : list nat)
         (max_steps : nat) (glimpse_size : list nat) (n_appearance : nat)
         (f : Callables Hidden) (mk : Created) (output_std : R)
         (discrete_steps : bool) (explore_eps : option R) (debug : bool)
         (self_baseline : option Baseline) (noise : nat -> Noise)
         (m : AIRModel Hidden),
    floor_at_most_one explore_eps ->
    AIRModel_init obs nums img_size max_steps glimpse_size n_appearance f mk
                  output_std discrete_steps explore_eps debug self_baseline
                  noise = Built m ->
    Forall (fun n => 0 <= n <= INR max_steps) (Model.num_step_per_sample m).
Proof.
  intros Hidden obs nums img_size max_steps glimpse_size n_appearance f mk
         output_std discrete_steps explore_eps debug self_baseline noise m
         Hfloor H.
  apply AIRModel_init_outputs in H.
  destruct H as (cell & outputs & Hcell & Hout & _ & _ & _ & _ & _ & _ & _
                 & Hnum & _).
  assert (Heps : _explore_eps cell = explore_eps).
  { unfold AIRCell_init in Hcell. injection Hcell as <-. reflexivity. }
  assert (Hlen : length outputs = max_steps).
  { rewrite Hout, dynamic_rnn_length. apply repeat_length. }
  rewrite Hnum, <- Hlen, <- (length_map Cell.presence).
  apply reduce_sum_axis0_bounds.
  rewrite Forall_map, Hout.
  apply dynamic_rnn_presence.
  - rewrite Heps. exact Hfloor.
  - simpl. apply Forall_forall. intros x Hx.
    apply repeat_spec in Hx. subst x. unfold in_unit_interval. lra.
Qed.

Lemma num_steps_within_budget_witness :
  exists m,
    (floor_at_most_one (Some 0)
     /\ AIRModel_init Sample.blank [[0; 0]] [1%nat; 2%nat] 3 [1%nat; 1%nat] 1
                      Sample.callables Sample.created 1 true (Some 0) false None
                      Sample.noise = Built m)
    /\ Forall (fun n => 0 <= n <= INR 3) (Model.num_step_per_sample m).
Proof.
  assert (Hfloor : floor_at_most_one (Some 0)) by (simpl; lra).
  destruct (AIRModel_init_succeeds unit Sample.blank [[0; 0]] [1%nat; 2%nat] 3
              [1%nat; 1%nat] 1 Sample.callables Sample.created 1 true (Some 0)
              false None Sample.noise) as [m Hm].
  exists m. split; [split; [exact Hfloor | exact Hm] |].
  exact (num_steps_within_budget unit Sample.blank [[0; 0]] [1%nat; 2%nat] 3
           [1%nat; 1%nat] 1 Sample.callables Sample.created 1 true (Some 0)
           false None Sample.noise m Hfloor Hm).
Defined.

(** ** The training step *)

(** X10: the training step raises whenever the prior term is enabled, an
    appearance prior is supplied and one of the two pose priors is [None]:
    the pose-KL block reads the attributes of both. *)
Theorem train_step_raises_without_pose_priors :
  forall (Hidden : Type) (prior : PriorModule) (m : AIRModel Hidden)
         (a : TrainArgs) (global_step : nat)
         (trainable_variables : list TfVariable),
    use_prior a = true ->
    appearance_prior a <> None ->
    where_scale_prior a = None \/ where_shift_prior a = None ->
    train_step prior m a global_step trainable_variables = None.
Proof.
  intros Hidden prior m a gs tv Hprior Happ Hpose.
  unfold train_step, _prior_loss. rewrite Hprior.
  destruct (appearance_prior a) as [ap |]; [| contradiction].
  destruct (where_scale_prior a) as [wsc |]; [| reflexivity].
  destruct (where_shift_prior a) as [wsh |]; [| reflexivity].
  destruct Hpose; discriminate.
Qed.

Lemma train_step_raises_without_pose_priors_witness :
  let a := {| learning_rate := 1 / 10000; l2_weight := 0;
              appearance_prior := Some {| prior_loc := 0; prior_scale := 1 |};
              where_scale_prior := None; where_shift_prior := None;
              num_steps_prior := None; use_prior := true;
              use_reinforce := true; arg_baseline := None |} in
  (use_prior a = true
   /\ appearance_prior a <> None
   /\ (where_scale_prior a = None \/ where_shift_prior a = None))
  /\ train_step Sample.prior_module (Sample.model (1 / 2) 1 Sample.pose) a 0 []
     = None.
Proof.
  intro a.
  assert (Happ : appearance_prior a <> None) by (simpl; discriminate).
  assert (Hpose : where_scale_prior a = None \/ where_shift_prior a = None)
    by (left; reflexivity).
  split; [repeat split; [exact Happ | exact Hpose] |].
  exact (train_step_raises_without_pose_priors unit Sample.prior_module
           (Sample.model (1 / 2) 1 Sample.pose) a 0 [] eq_refl Happ Hpose).
Defined.

Lemma tf_l2_loss_nonneg : forall w, 0 <= tf_l2_loss w.
Proof.
  intros w. unfold tf_l2_loss, reduce_sum.
  assert (H : 0 <= fold_right Rplus 0 (map Rsqr (var_entries w))).
  { induction (var_entries w) as [| x xs IH]; simpl; [lra |].
    pose proof (Rle_0_sqr x). lra. }
  lra.
Qed.

Lemma sum_l2_nonneg :
  forall ws, 0 <= fold_right Rplus 0 (map tf_l2_loss ws).
Proof.
  induction ws as [| w ws IH]; simpl; [lra |].
  pose proof (tf_l2_loss_nonneg w). lra.
Qed.

(** X11: for a float [l2_weight], the objective handed to the optimiser is
    the total loss plus the REINFORCE loss, when REINFORCE is enabled, plus,
    exactly when [l2_weight > 0], the L2 term: [l2_weight] times the sum of
    [tf.nn.l2_loss] over the model variables of rank 2.  That term is not
    negative, so it never lowers the objective. *)
Theorem l2_term_of_objective :
  forall (Hidden : Type) (prior : PriorModule) (m : AIRModel Hidden)
         (a : TrainArgs) (global_step : nat)
         (trainable_variables : list TfVariable) (r : TrainStep),
    train_step prior m a global_step trainable_variables = Some r ->
    let reinforce_loss :=
      match reinforce r with
      | Some rf => r_reinforce_loss rf
      | None => 0
      end in
    (l2_weight a <= 0 ->
     l2_loss r = None /\ opt_loss r = value (loss r) + reinforce_loss)
    /\ (0 < l2_weight a ->
        exists l2,
          l2_loss r = Some l2
          /\ l2 = l2_weight a
                  * fold_right Rplus 0
                      (map tf_l2_loss
                           (filter (fun w => Nat.eqb (var_rank w) 2)
                                   (model_vars r)))
          /\ 0 <= l2
          /\ opt_loss r = value (loss r) + reinforce_loss + l2).
Proof.
  intros Hidden prior m a gs tv r Hstep.
  unfold train_step in Hstep.
  destruct (if use_prior a then _ else _) as [[pl l] |]; [| discriminate].
  injection Hstep as <-. cbn [l2_loss model_vars opt_loss loss reinforce].
  destruct (Rlt_dec 0 (l2_weight a)) as [Hpos | Hneg].
  - split; [intros H; lra |].
    intros _. eexists. split; [reflexivity |]. split; [reflexivity |].
    split.
    + apply Rmult_le_pos; [lra | apply sum_l2_nonneg].
    + destruct (use_reinforce a); [reflexivity | ring].
  - split; [| intros H; lra].
    intros _. split; [reflexivity |].
    destruct (use_reinforce a); [reflexivity | ring].
Qed.

Lemma l2_term_of_objective_witness :
  let m := Sample.model (1 / 2) 1 Sample.pose in
  let a := Sample.args_l2 false None in
  exists r,
    (train_step Sample.prior_module m a 0 SampleGraph.variables = Some r
     /\ 0 < l2_weight a)
    /\ exists l2,
         l2_loss r = Some l2
         /\ l2 = l2_weight a
                 * fold_right Rplus 0
                     (map tf_l2_loss
                          (filter (fun w => Nat.eqb (var_rank w) 2)
                                  (model_vars r)))
         /\ 0 <= l2
         /\ opt_loss r
            = value (loss r)
              + match reinforce r with
                | Some rf => r_reinforce_loss rf
                | None => 0
                end
              + l2.
Proof.
  intros m a.
  destruct (train_step_without_prior unit Sample.prior_module m a 0
              SampleGraph.variables eq_refl) as (r & Hstep & _).
  assert (Hpos : 0 < l2_weight a) by (simpl; lra).
  exists r. split; [split; [exact Hstep | exact Hpos] |].
  exact (proj2 (l2_term_of_objective unit Sample.prior_module m a 0
                  SampleGraph.variables r Hstep) Hpos).
Defined.

(** X12: when REINFORCE runs with a baseline, no variable of the baseline
    scope is among the variables of the main optimiser; without REINFORCE, or
    without a baseline, every trainable variable is. *)
Theorem model_vars_exclude_baseline :
  forall (Hidden : Type) (prior : PriorModule) (m : AIRModel Hidden)
         (a : TrainArgs) (global_step : nat)
         (trainable_variables : list TfVariable) (r : TrainStep),
    train_step prior m a global_step trainable_variables = Some r ->
    let configured :=
      match arg_baseline a with
      | Some b => Some b
      | None => baseline m
      end in
    (use_reinforce a = true -> configured <> None ->
     forall v, In v (model_vars r) -> in_baseline_scope v = false)
    /\ (use_reinforce a = false \/ configured = None ->
        model_vars r = trainable_variables).
Proof.
  intros Hidden prior m a gs tv r Hstep configured.
  unfold train_step in Hstep.
  destruct (if use_prior a then _ else _) as [[pl l] |]; [| discriminate].
  injection Hstep as <-. cbn [model_vars].
  assert (Hall : forall vs : list TfVariable,
             filter (fun v => negb (existsb
               (fun b => String.eqb (var_name b) (var_name v)) [])) vs = vs).
  { induction vs as [| v vs IH]; [reflexivity |].
    cbn [filter existsb negb]. f_equal. exact IH. }
  split.
  - intros Hre Hconf v Hv. rewrite Hre in Hv.
    unfold _reinforce in Hv. cbn [r_baseline_vars] in Hv.
    subst configured.
    destruct (match arg_baseline a with Some b => Some b | None => baseline m end)
      as [b |]; [| contradiction].
    cbn [option_map] in Hv.
    apply filter_In in Hv. destruct Hv as [Hin Hnot].
    destruct (in_baseline_scope v) eqn:Hscope; [| reflexivity].
    exfalso. apply negb_true_iff in Hnot.
    assert (Hex : existsb (fun b0 => String.eqb (var_name b0) (var_name v))
                          (filter in_baseline_scope tv) = true).
    { apply existsb_exists. exists v. split.
      - apply filter_In. split; assumption.
      - apply String.eqb_refl. }
    congruence.
  - intros [Hre | Hconf].
    + rewrite Hre. apply Hall.
    + destruct (use_reinforce a); [| apply Hall].
      unfold _reinforce. cbn [r_baseline_vars].
      subst configured. rewrite Hconf. cbn [option_map]. apply Hall.
Qed.

Lemma model_vars_exclude_baseline_witness :
  let a := Sample.args false true None (Some Sample.baseline_off_by_one) in
  let m := Sample.model (1 / 2) 1 Sample.pose in
  exists r,
    train_step Sample.prior_module m a 0 SampleGraph.variables = Some r
    /\ (use_reinforce a = true ->
        match arg_baseline a with Some b => Some b | None => baseline m end
        <> None ->
        forall v, In v (model_vars r) -> in_baseline_scope v = false)
    /\ (use_reinforce a = false
        \/ match arg_baseline a with Some b => Some b | None => baseline m end
           = None ->
        model_vars r = SampleGraph.variables).
Proof.
  intros a m.
  destruct (train_step_without_prior unit Sample.prior_module m a 0
              SampleGraph.variables eq_refl) as (r & Hstep & _).
  exists r. split; [exact Hstep |].
  exact (model_vars_exclude_baseline unit Sample.prior_module m a 0
           SampleGraph.variables r Hstep).
Defined.

(** ** REINFORCE and the baseline *)

Lemma reduce_sum_app :
  forall (a b : vec), reduce_sum (a ++ b) = reduce_sum a + reduce_sum b.
Proof.
  unfold reduce_sum. induction a as [| x a IH]; intro b; simpl.
  - ring.
  - rewrite IH. ring.
Qed.

(** The sum and the number of the entries of a tensor given row by row. *)
Lemma reduce_sum_rows :
  forall (f : R -> vec) (g : R -> R) (b : vec),
    (forall x, reduce_sum (f x) = g x) ->
    reduce_sum (concat (map f b)) = reduce_sum (map g b).
Proof.
  intros f g b H. induction b as [| x b IH]; [reflexivity |].
  cbn [map concat]. rewrite reduce_sum_app, IH, H. reflexivity.
Qed.

Lemma length_rows :
  forall (f : R -> vec) (n : nat) (b : vec),
    (forall x, length (f x) = n) ->
    length (concat (map f b)) = (length b * n)%nat.
Proof.
  intros f n b H. induction b as [| x b IH]; [reflexivity |].
  cbn [map concat length]. rewrite length_app, IH, H. reflexivity.
Qed.

(** The products of line 187 and the squares of line 196, row by row: the
    row of the prediction [bi] pairs it with the loss of every sample. *)
Lemma reinforce_rows :
  forall (l b lp : vec),
    mul_rows (map (map stop_gradient) (sub_column l b)) lp
    = map (fun bi => zipWith Rmult (map (fun aj => aj - bi) l) lp) b.
Proof.
  intros l b lp. unfold mul_rows, sub_column, stop_gradient.
  rewrite !map_map. apply map_ext. intro bi. rewrite map_id. reflexivity.
Qed.

Lemma baseline_rows :
  forall (l b : vec),
    map (map Rsqr) (sub_column (map stop_gradient l) b)
    = map (fun bi => map (fun aj => Rsqr (aj - bi)) l) b.
Proof.
  intros l b. unfold sub_column, stop_gradient.
  rewrite map_map. apply map_ext. intro bi.
  rewrite map_id, map_map. reflexivity.
Qed.

(** The mean of a tensor whose rows are all the same is the mean of the
    row. *)
Lemma reduce_mean_copies :
  forall (row : vec) (n : nat),
    (n = O -> row = []) ->
    reduce_mean (concat (repeat row n)) = reduce_mean row.
Proof.
  intros row n Hn.
  assert (Hsum : reduce_sum (concat (repeat row n)) = INR n * reduce_sum row).
  { clear Hn. induction n as [| n IH]; [unfold reduce_sum; simpl; ring |].
    cbn [repeat concat]. rewrite reduce_sum_app, IH, S_INR. ring. }
  assert (Hlen : length (concat (repeat row n)) = (n * length row)%nat).
  { clear Hn Hsum. induction n as [| n IH]; [reflexivity |].
    cbn [repeat concat]. rewrite length_app, IH. reflexivity. }
  unfold reduce_mean. rewrite Hsum, Hlen, mult_INR.
  destruct n as [| n].
  - rewrite (Hn eq_refl). unfold reduce_sum. simpl. unfold Rdiv.
    rewrite !Rmult_0_l. reflexivity.
  - destruct row as [| x row].
    + unfold reduce_sum. simpl fold_right. unfold Rdiv.
      rewrite Rmult_0_r, !Rmult_0_l. reflexivity.
    + assert (H1 : INR (S n) <> 0) by (apply not_0_INR; discriminate).
      assert (H2 : INR (length (x :: row)) <> 0)
        by (apply not_0_INR; discriminate).
      field. split; assumption.
Qed.

(** One row of products: the prediction enters through the sum of the
    log-probabilities. *)
Lemma reinforce_row_sum :
  forall (x : R) (l lp : vec),
    length lp = length l ->
    reduce_sum (zipWith Rmult (map (fun aj => aj - x) l) lp)
    = reduce_sum (zipWith Rmult l lp) - x * reduce_sum lp.
Proof.
  intros x l. unfold reduce_sum.
  induction l as [| a l IH]; intros [| c lp] Hlen; simpl in *;
    try discriminate; [ring |].
  injection Hlen as Hlen. rewrite (IH lp Hlen). ring.
Qed.

Lemma reduce_sum_affine :
  forall (s c : R) (b : vec),
    reduce_sum (map (fun x => s - x * c) b)
    = INR (length b) * s - reduce_sum b * c.
Proof.
  intros s c b. unfold reduce_sum.
  induction b as [| x b IH]; [simpl; ring |].
  cbn [map fold_right length]. rewrite IH, S_INR. ring.
Qed.

(** X13: the prediction of a baseline module, of shape [(batch, 1)], lowers
    the REINFORCE loss through its batch mean only.  Line 184 pairs the loss
    of every sample with the prediction for every sample; over the reals the
    mean of the products is the batch mean of
    [(loss - mean(prediction)) * log_prob], whatever the single predictions
    are. *)
Theorem baseline_acts_through_its_batch_mean :
  forall (Hidden : Type) (prior : PriorModule) (m : AIRModel Hidden)
         (loss : Loss) (b : Baseline)
         (trainable_variables : list TfVariable),
    let prediction := b (obs m) (what m) (where_ m) (presence_prob m) in
    let log_prob :=
      map (fun l => clip_by_value l (-1e38) 1e38)
          (NumStepsDistribution_log_prob prior (num_steps_distrib m)
                                         (num_step_per_sample m)) in
    per_sample loss <> [] ->
    length prediction = length (per_sample loss) ->
    length log_prob = length (per_sample loss) ->
    r_reinforce_loss (_reinforce prior m loss (Some b) trainable_variables)
    = reduce_mean
        (zipWith Rmult
           (map (fun l => l - reduce_mean prediction) (per_sample loss))
           log_prob).
Proof.
  intros Hidden prior m loss b tv prediction log_prob Hne Hb Hlp.
  unfold _reinforce. cbn [option_map r_reinforce_loss].
  fold prediction. fold log_prob.
  set (l := per_sample loss) in *.
  rewrite reinforce_rows. unfold reduce_mean2, reduce_mean.
  rewrite (reduce_sum_rows _
             (fun x => reduce_sum (zipWith Rmult l log_prob)
                       - x * reduce_sum log_prob))
    by (intro x; apply reinforce_row_sum; exact Hlp).
  rewrite (length_rows _ (length l))
    by (intro x; rewrite zipWith_length, length_map, Hlp; apply Nat.min_id).
  rewrite reduce_sum_affine.
  rewrite reinforce_row_sum by exact Hlp.
  rewrite zipWith_length, length_map, Hlp, Nat.min_id.
  rewrite mult_INR, Hb.
  assert (Hn : INR (length l) <> 0).
  { apply not_0_INR. destruct l; [contradiction | discriminate]. }
  field. exact Hn.
Qed.

Lemma baseline_acts_through_its_batch_mean_witness :
  let m := Sample.model (1 / 2) 1 Sample.pose in
  let prediction :=
    Sample.exact_baseline (obs m) (what m) (where_ m) (presence_prob m) in
  let log_prob :=
    map (fun l => clip_by_value l (-1e38) 1e38)
        (NumStepsDistribution_log_prob Sample.prior_module
           (num_steps_distrib m) (num_step_per_sample m)) in
  (per_sample Sample.some_loss <> []
   /\ length prediction = length (per_sample Sample.some_loss)
   /\ length log_prob = length (per_sample Sample.some_loss))
  /\ r_reinforce_loss
       (_reinforce Sample.prior_module m Sample.some_loss
                   (Some Sample.exact_baseline) SampleGraph.variables)
     = reduce_mean
         (zipWith Rmult
            (map (fun l => l - reduce_mean prediction)
                 (per_sample Sample.some_loss))
            log_prob).
Proof.
  intros m prediction log_prob.
  assert (Hne : per_sample Sample.some_loss <> []) by (simpl; discriminate).
  split; [repeat split; exact Hne |].
  exact (baseline_acts_through_its_batch_mean unit Sample.prior_module m
           Sample.some_loss Sample.exact_baseline SampleGraph.variables
           Hne eq_refl eq_refl).
Defined.

(** X14: with a baseline that predicts zero for every sample, the REINFORCE
    loss is the batch mean of the per-sample total loss times the clipped
    log-probability, as without a baseline; the baseline loss is the batch
    mean of the squared per-sample loss. *)
Theorem zero_baseline_reinforce :
  forall (Hidden : Type) (prior : PriorModule) (m : AIRModel Hidden)
         (loss : Loss) (b : Baseline)
         (trainable_variables : list TfVariable),
    b (obs m) (what m) (where_ m) (presence_prob m)
    = repeat 0 (length (per_sample loss)) ->
    let r := _reinforce prior m loss (Some b) trainable_variables in
    r_reinforce_loss r
    = reduce_mean
        (zipWith Rmult (per_sample loss)
           (map (fun l => clip_by_value l (-1e38) 1e38)
                (NumStepsDistribution_log_prob prior (num_steps_distrib m)
                                               (num_step_per_sample m))))
    /\ r_baseline_loss r = Some (reduce_mean (map Rsqr (per_sample loss))).
Proof.
  intros Hidden prior m loss b tv Hb.
  unfold _reinforce.
  cbn [option_map r_reinforce_loss r_baseline_loss].
  rewrite Hb. set (l := per_sample loss).
  assert (Hsub : map (fun aj => aj - 0) l = l).
  { rewrite <- (map_id l) at 2. apply map_ext. intro x. ring. }
  assert (Hsqr : map (fun aj => Rsqr (aj - 0)) l = map Rsqr l).
  { apply map_ext. intro x. f_equal. ring. }
  assert (Hempty : forall row : vec,
             (l = [] -> row = []) -> length l = O -> row = []).
  { intros row Hrow Hlen. apply Hrow. destruct l; [reflexivity | discriminate]. }
  split.
  - rewrite reinforce_rows. unfold reduce_mean2.
    rewrite map_repeat, Hsub.
    apply reduce_mean_copies. apply Hempty. intros ->. reflexivity.
  - f_equal. rewrite baseline_rows. unfold reduce_mean2.
    rewrite map_repeat, Hsqr.
    apply reduce_mean_copies. apply Hempty. intros ->. reflexivity.
Qed.

Lemma zero_baseline_reinforce_witness :
  let m := Sample.model (1 / 2) 1 Sample.pose in
  Sample.zero_baseline (obs m) (what m) (where_ m) (presence_prob m)
  = repeat 0 (length (per_sample Sample.some_loss))
  /\ (let r := _reinforce Sample.prior_module m Sample.some_loss
                          (Some Sample.zero_baseline) SampleGraph.variables in
      r_reinforce_loss r
      = reduce_mean
          (zipWith Rmult (per_sample Sample.some_loss)
             (map (fun l => clip_by_value l (-1e38) 1e38)
                  (NumStepsDistribution_log_prob Sample.prior_module
                     (num_steps_distrib m) (num_step_per_sample m))))
      /\ r_baseline_loss r
         = Some (reduce_mean (map Rsqr (per_sample Sample.some_loss)))).
Proof.
  intro m. split; [reflexivity |].
  exact (zero_baseline_reinforce unit Sample.prior_module m Sample.some_loss
           Sample.zero_baseline SampleGraph.variables eq_refl).
Defined.

(** ** Exponential annealing *)



(** ** Properties of every output of the unrolled cell *)

Lemma dynamic_rnn_Forall_output :
  forall (Hidden : Type) (cell : AIRCell Hidden) (P : Output -> Prop),
    (forall noise inpt state, P (fst (_build cell noise inpt state))) ->
    forall (noise : nat -> Noise) (inputs : list vec) (t : nat)
           (state : State Hidden),
      Forall P (fst (dynamic_rnn cell noise t inputs state)).
Proof.
  intros Hidden cell P HP noise inputs.
  induction inputs as [| x xs IH]; intros t state; simpl.
  - constructor.
  - pose proof (HP (noise t) x state) as Ho.
    destruct (_build cell (noise t) x state) as [o state'].
    specialize (IH (S t) state').
    destruct (dynamic_rnn cell noise (S t) xs state') as [os final].
    cbn [fst] in *. constructor; assumption.
Qed.

(** ** The transform estimators *)

(** X17: [TransformParam._build] never returns: it starts by calling itself,
    so whatever the recursion limit, the call ends in RecursionError. *)
Theorem TransformParam_build_never_returns :
  forall (depth : nat) (tp : TransformParam) (inpt : tensor2),
    TransformParam_build depth tp inpt = None.
Proof.
  induction depth as [| depth IH]; intros tp inpt; simpl.
  - reflexivity.
  - rewrite IH. reflexivity.
Qed.

Lemma tanh_bounds : forall x, -1 <= tanh x <= 1.
Proof.
  intro x. unfold tanh, sinh, cosh.
  pose proof (exp_pos x) as Ha. pose proof (exp_pos (- x)) as Hb.
  set (a := exp x) in *. set (b := exp (- x)) in *.
  replace ((a - b) / 2 / ((a + b) / 2)) with ((a - b) / (a + b))
    by (field; lra).
  assert (Hd : 0 < a + b) by lra.
  split.
  - apply (Rmult_le_reg_r (a + b)); [exact Hd |].
    unfold Rdiv. rewrite Rmult_assoc, Rinv_l by lra. lra.
  - apply (Rmult_le_reg_r (a + b)); [exact Hd |].
    unfold Rdiv. rewrite Rmult_assoc, Rinv_l by lra. lra.
Qed.

Lemma transform_row_in_range :
  forall (tp : TransformParam) (row : vec),
    0 <= _max_crop_size tp ->
    length row = 4%nat ->
    Forall (pose_in_range (_max_crop_size tp)) (_transform tp [row]).
Proof.
  intros tp row Hmc Hlen.
  destruct row as [| a [| b [| c [| d [| e row]]]]]; try discriminate.
  simpl. constructor; [| constructor].
  exists (_max_crop_size tp * sigmoid a), (tanh b),
         (_max_crop_size tp * sigmoid c), (tanh d).
  pose proof (sigmoid_in_unit_interval a) as Ha.
  pose proof (sigmoid_in_unit_interval c) as Hc.
  pose proof (tanh_bounds b) as Hb. pose proof (tanh_bounds d) as Hd.
  unfold in_unit_interval in Ha, Hc.
  repeat split; try tauto; nra.
Qed.

Lemma transform_in_range :
  forall (tp : TransformParam) (inpt : tensor2),
    0 <= _max_crop_size tp ->
    Forall (fun row => length row = 4%nat) inpt ->
    Forall (pose_in_range (_max_crop_size tp)) (_transform tp inpt).
Proof.
  intros tp inpt Hmc H.
  induction H as [| row inpt Hrow Hrest IH]; [constructor |].
  pose proof (transform_row_in_range tp row Hmc Hrow) as H1.
  inversion H1 as [| r rs Hr _]; subst.
  constructor; [exact Hr | exact IH].
Qed.

(** X18: [TransformParam._transform] keeps the number of rows, and turns each
    row of four raw parameters into a pose whose scales lie in
    [[0, max_crop_size]] and whose shifts lie in [[-1, 1]], the bounds
    included. *)
Theorem transform_yields_poses_in_range :
  forall (tp : TransformParam) (inpt : tensor2),
    0 <= _max_crop_size tp ->
    Forall (fun row => length row = 4%nat) inpt ->
    length (_transform tp inpt) = length inpt
    /\ Forall (pose_in_range (_max_crop_size tp)) (_transform tp inpt).
Proof.
  intros tp inpt Hmc H. split.
  - unfold _transform. apply length_map.
  - apply transform_in_range; assumption.
Qed.

Lemma transform_yields_poses_in_range_witness :
  let tp := {| tp_mlp := fun x => x; _n_param := 4; _max_crop_size := 1 |} in
  (0 <= _max_crop_size tp
   /\ Forall (fun row => length row = 4%nat) [[0; 1; 2; 3]; [4; 5; 6; 7]])
  /\ length (_transform tp [[0; 1; 2; 3]; [4; 5; 6; 7]]) = 2%nat
  /\ Forall (pose_in_range (_max_crop_size tp))
            (_transform tp [[0; 1; 2; 3]; [4; 5; 6; 7]]).
Proof.
  intro tp.
  assert (H1 : 0 <= _max_crop_size tp) by (simpl; lra).
  assert (H2 : Forall (fun row => length row = 4%nat)
                      [[0; 1; 2; 3]; [4; 5; 6; 7]])
    by (repeat constructor).
  split; [split; assumption |].
  exact (transform_yields_poses_in_range tp [[0; 1; 2; 3]; [4; 5; 6; 7]] H1 H2).
Defined.

Lemma pose_in_range_length :
  forall (mc : R) (row : vec), pose_in_range mc row -> length row = 4%nat.
Proof.
  intros mc row (sx & tx & sy & ty & -> & _). reflexivity.
Qed.

Lemma firstn_4_of_8 :
  forall (row : vec), length row = 8%nat -> length (firstn 4 row) = 4%nat.
Proof.
  intros row H. rewrite length_firstn, H. reflexivity.
Qed.

Lemma skipn_4_of_8 :
  forall (row : vec), length row = 8%nat -> length (skipn 4 row) = 4%nat.
Proof.
  intros row H. rewrite length_skipn, H. reflexivity.
Qed.

Lemma stochastic_build_output :
  forall (mlp : nat -> tensor2 -> tensor2) (max_crop_size scale_bias : R)
         (inpt : tensor2),
    0 <= max_crop_size ->
    Forall (fun row => length row = 8%nat) (mlp 8%nat inpt) ->
    let out :=
      StochasticTransformParam_build
        (StochasticTransformParam_init mlp 4 max_crop_size scale_bias) inpt in
    length (fst out) = length (mlp 8%nat inpt)
    /\ Forall (pose_in_range max_crop_size) (fst out)
    /\ snd out
       = map (fun row => map (fun s => s + scale_bias) (skipn 4 row))
             (mlp 8%nat inpt)
    /\ Forall (fun row => length row = 4%nat) (snd out).
Proof.
  intros mlp mc bias inpt Hmc Hrows.
  unfold StochasticTransformParam_build, StochasticTransformParam_init, _embed.
  cbn [stp_base tp_mlp _n_param _scale_bias fst snd].
  change (Nat.div (4 * 2) 2) with 4%nat.
  change (4 * 2)%nat with 8%nat.
  assert (Hfirst : Forall (fun row => length row = 4%nat)
                          (map (firstn 4) (mlp 8%nat inpt))).
  { rewrite Forall_map. eapply Forall_impl; [| exact Hrows].
    intros row Hrow. apply firstn_4_of_8. exact Hrow. }
  split; [| split; [| split]].
  - unfold _transform. rewrite !length_map. reflexivity.
  - apply (transform_in_range
             {| tp_mlp := mlp 8%nat; _n_param := 8; _max_crop_size := mc |});
      assumption.
  - rewrite map_map. reflexivity.
  - rewrite !Forall_map. eapply Forall_impl; [| exact Hrows].
    intros row Hrow. rewrite length_map. apply skipn_4_of_8. exact Hrow.
Qed.



(** ** The steps predictor *)

(** X20: [StepsPredictor] answers with one probability per logit of its MLP,
    each between 0 and 1, the bounds included. *)
Theorem steps_predictor_probabilities :
  forall (sp : StepsPredictor) (inpt : tensor2),
    length (StepsPredictor_build sp inpt) = length (sp_mlp sp inpt)
    /\ Forall in_unit_interval (StepsPredictor_build sp inpt).
Proof.
  intros sp inpt. unfold StepsPredictor_build. split.
  - rewrite !length_map. reflexivity.
  - rewrite !Forall_map. apply Forall_forall. intros l _.
    apply sigmoid_in_unit_interval.
Qed.

Lemma sigmoid_increasing : forall x y, x <= y -> sigmoid x <= sigmoid y.
Proof.
  intros x y Hxy. unfold sigmoid.
  pose proof (exp_pos (- x)) as Hx. pose proof (exp_pos (- y)) as Hy.
  assert (He : exp (- y) <= exp (- x)) by (apply exp_le; lra).
  unfold Rdiv. rewrite !Rmult_1_l.
  apply Rinv_le_contravar; lra.
Qed.

(** X21: a larger [steps_bias] never lowers a step probability: with the same
    MLP, the probabilities for the smaller bias are, one by one, at most those
    for the larger bias. *)
Theorem steps_bias_raises_probabilities :
  forall (mlp : tensor2 -> vec) (bias1 bias2 : R) (inpt : tensor2),
    bias1 <= bias2 ->
    Forall2 Rle
            (StepsPredictor_build {| sp_mlp := mlp; _steps_bias := bias1 |} inpt)
            (StepsPredictor_build {| sp_mlp := mlp; _steps_bias := bias2 |} inpt).
Proof.
  intros mlp bias1 bias2 inpt Hb. unfold StepsPredictor_build.
  cbn [sp_mlp _steps_bias].
  induction (mlp inpt) as [| l ls IH]; simpl; constructor.
  - apply sigmoid_increasing. lra.
  - exact IH.
Qed.

Lemma steps_bias_raises_probabilities_witness :
  0 <= 1
  /\ Forall2 Rle
       (StepsPredictor_build
          {| sp_mlp := map (fun _ => 0); _steps_bias := 0 |} Sample.blank)
       (StepsPredictor_build
          {| sp_mlp := map (fun _ => 0); _steps_bias := 1 |} Sample.blank).
Proof.
  assert (H : 0 <= 1) by lra.
  split; [exact H |].
  exact (steps_bias_raises_probabilities (map (fun _ => 0)) 0 1 Sample.blank H).
Defined.

(** ** The model for MNIST *)

Lemma map_loc_zipWith :
  forall (l s : vec),
    length l = length s ->
    map loc (zipWith NormalWithSoftplusScale l s) = l.
Proof.
  induction l as [| x l IH]; intros [| y s] H; simpl in *;
    try reflexivity; try discriminate.
  f_equal. apply IH. congruence.
Qed.

Lemma map_map_loc_zipWith :
  forall (locs scales : tensor2),
    length locs = length scales ->
    Forall (fun row => length row = 4%nat) locs ->
    Forall (fun row => length row = 4%nat) scales ->
    map (map loc) (zipWith (zipWith NormalWithSoftplusScale) locs scales)
    = locs.
Proof.
  induction locs as [| l locs IH]; intros [| s scales] Hlen Hl Hs;
    simpl in *; try reflexivity; try discriminate.
  inversion Hl as [| ? ? Hl1 Hl2]; subst.
  inversion Hs as [| ? ? Hs1 Hs2]; subst.
  f_equal.
  - apply map_loc_zipWith. congruence.
  - apply IH; [congruence | assumption | assumption].
Qed.

(** A cell whose transform estimator is a [StochasticTransformParam] for four
    parameters emits poses in range. *)
Lemma build_where_loc_in_range :
  forall (Hidden : Type) (cell : AIRCell Hidden)
         (mlp : nat -> tensor2 -> tensor2) (max_crop_size scale_bias : R)
         (noise : Noise) (inpt : vec) (state : State Hidden),
    _transform_estimator cell
    = StochasticTransformParam_build
        (StochasticTransformParam_init mlp 4 max_crop_size scale_bias) ->
    0 <= max_crop_size ->
    (forall x, Forall (fun row => length row = 8%nat) (mlp 8%nat x)) ->
    Forall (pose_in_range max_crop_size)
           (Cell.where_loc (fst (_build cell noise inpt state))).
Proof.
  intros Hidden cell mlp mc bias noise inpt state Hte Hmc Hshape.
  unfold _build.
  destruct (_transition cell _ _) as [hidden_output hidden_state].
  cbn [fst Cell.where_loc]. rewrite Hte.
  set (out := StochasticTransformParam_build _ hidden_output).
  assert (Hout :
    length (fst out) = length (mlp 8%nat hidden_output)
    /\ Forall (pose_in_range mc) (fst out)
    /\ snd out
       = map (fun row => map (fun s => s + bias) (skipn 4 row))
             (mlp 8%nat hidden_output)
    /\ Forall (fun row => length row = 4%nat) (snd out)).
  { subst out.
    exact (stochastic_build_output mlp mc bias hidden_output Hmc
             (Hshape hidden_output)). }
  destruct Hout as (Hlen & Hrange & Hsnd & Hfour).
  rewrite map_map_loc_zipWith.
  - exact Hrange.
  - rewrite Hlen, Hsnd, length_map. reflexivity.
  - eapply Forall_impl; [| exact Hrange].
    intros row Hrow. eapply pose_in_range_length. exact Hrow.
  - exact Hfour.
Qed.

(** X22: in the model for MNIST, provided the MLP of the transform estimator
    answers with rows of eight values, every pose location of every step and
    sample has its scales in [[0, 1]] and its shifts in [[-1, 1]], the bounds
    included. *)
Theorem mnist_where_loc_in_range :
  forall (Hidden : Type) (obs nums : tensor2) (img_size glimpse_size : list nat)
         (nets : Networks Hidden) (mk : Created)
         (transform_var_bias step_bias : R) (max_steps : nat)
         (discrete_steps : bool) (explore_eps : option R) (debug : bool)
         (noise : nat -> Noise) (m : AIRModel Hidden),
    (forall x,
        Forall (fun row => length row = 8%nat)
               (transform_estimator_mlp Hidden nets 8%nat x)) ->
    AIRonMNIST_init obs nums img_size glimpse_size nets mk transform_var_bias
                    step_bias max_steps discrete_steps explore_eps debug noise
    = Built m ->
    Forall (Forall (pose_in_range 1)) (where_loc m).
Proof.
  intros Hidden obs nums img_size glimpse_size nets mk tvb sb max_steps
         discrete_steps explore_eps debug noise m Hshape H.
  unfold AIRonMNIST_init in H.
  apply AIRModel_init_outputs in H.
  destruct H as (cell & outputs & Hcell & Hout & _ & _ & _ & _ & Hwl & _).
  rewrite Hwl, Forall_map, Hout.
  apply dynamic_rnn_Forall_output.
  intros nz x s.
  apply (build_where_loc_in_range Hidden cell
           (transform_estimator_mlp Hidden nets) 1 tvb nz x s).
  - unfold AIRCell_init in Hcell. injection Hcell as <-. reflexivity.
  - lra.
  - exact Hshape.
Qed.

Lemma mnist_where_loc_in_range_witness :
  exists m,
    ((forall x,
         Forall (fun row => length row = 8%nat)
                (transform_estimator_mlp unit SampleMnist.networks 8%nat x))
     /\ AIRonMNIST_init Sample.blank [[0; 0]] [1%nat; 2%nat] [1%nat; 1%nat]
                        SampleMnist.networks Sample.created (-3) 1 3 true
                        (Some 0) false Sample.noise
        = Built m)
    /\ Forall (Forall (pose_in_range 1)) (where_loc m).
Proof.
  assert (Hshape : forall x,
             Forall (fun row => length row = 8%nat)
                    (transform_estimator_mlp unit SampleMnist.networks 8%nat x)).
  { intros x. simpl. rewrite Forall_map. apply Forall_forall.
    intros row _. reflexivity. }
  destruct (AIRModel_init_succeeds unit Sample.blank [[0; 0]] [1%nat; 2%nat] 3
              [1%nat; 1%nat] 50
              (AIRonMNIST_callables SampleMnist.networks (-3) 1) Sample.created
              0.3 true (Some 0) false
              (Some (BaselineMLP_build (baseline_mlp unit SampleMnist.networks)))
              Sample.noise) as [m Hm].
  exists m. split; [split; [exact Hshape | exact Hm] |].
  exact (mnist_where_loc_in_range unit Sample.blank [[0; 0]] [1%nat; 2%nat]
           [1%nat; 1%nat] SampleMnist.networks Sample.created (-3) 1 3 true
           (Some 0) false Sample.noise m Hshape Hm).
Defined.

(** X23: the model for MNIST carries its own baseline: when the training step
    runs REINFORCE without a baseline argument, the [(batch, 1)] prediction of
    the [BaselineMLP] of the model is what is subtracted from the [(batch,)]
    per-sample loss, each prediction from the loss of every sample, and that
    baseline is trained on the mean of the squares of these
    [batch * batch] differences.  The model has 50 appearance units and an
    output deviation of 0.3. *)
Theorem mnist_trains_its_baseline :
  forall (Hidden : Type) (prior : PriorModule) (obs nums : tensor2)
         (img_size glimpse_size : list nat) (nets : Networks Hidden)
         (mk : Created) (transform_var_bias step_bias : R) (max_steps : nat)
         (discrete_steps : bool) (explore_eps : option R) (debug : bool)
         (noise : nat -> Noise) (m : AIRModel Hidden) (a : TrainArgs)
         (global_step : nat) (trainable_variables : list TfVariable)
         (r : TrainStep),
    AIRonMNIST_init obs nums img_size glimpse_size nets mk transform_var_bias
                    step_bias max_steps discrete_steps explore_eps debug noise
    = Built m ->
    use_reinforce a = true ->
    arg_baseline a = None ->
    train_step prior m a global_step trainable_variables = Some r ->
    let prediction :=
      BaselineMLP_build (baseline_mlp Hidden nets)
                        (Model.obs m) (what m) (where_ m) (presence_prob m) in
    n_appearance m = 50%nat
    /\ output_std m = 0.3
    /\ exists rf,
         reinforce r = Some rf
         /\ r_baseline rf = Some prediction
         /\ r_importance_weight rf
            = Pairwise (sub_column (per_sample (loss r)) prediction)
         /\ r_baseline_loss rf
            = Some (reduce_mean2
                      (map (map Rsqr)
                           (sub_column (per_sample (loss r)) prediction))).
Proof.
  intros Hidden prior obs nums img_size glimpse_size nets mk tvb sb max_steps
         discrete_steps explore_eps debug noise m a gs tv r Hm Hre Harg Hstep
         prediction.
  assert (Hfields : n_appearance m = 50%nat /\ output_std m = 0.3
                    /\ baseline m
                       = Some (BaselineMLP_build (baseline_mlp Hidden nets))).
  { unfold AIRonMNIST_init, AIRModel_init in Hm.
    cbn [AIRCell_init] in Hm.
    destruct (dynamic_rnn _ _ _ _ _) as [outputs state].
    injection Hm as <-. repeat split. }
  destruct Hfields as (Hn & Hstd & Hb).
  split; [exact Hn |]. split; [exact Hstd |].
  unfold train_step in Hstep. rewrite Hre in Hstep.
  destruct (if use_prior a then _ else _) as [[pl l] |]; [| discriminate].
  injection Hstep as <-. cbn [reinforce loss].
  eexists. split; [reflexivity |].
  unfold _reinforce. cbn [r_baseline r_baseline_loss r_importance_weight].
  rewrite Harg, Hb. cbn [option_map]. unfold stop_gradient. rewrite map_id.
  repeat split.
Qed.

Lemma mnist_trains_its_baseline_witness :
  let a := Sample.args false true None None in
  exists m r,
    (AIRonMNIST_init Sample.blank [[0; 0]] [1%nat; 2%nat] [1%nat; 1%nat]
                     SampleMnist.networks Sample.created (-3) 1 3 true
                     (Some 0) false Sample.noise
     = Built m
     /\ use_reinforce a = true
     /\ arg_baseline a = None
     /\ train_step Sample.prior_module m a 0 SampleGraph.variables = Some r)
    /\ n_appearance m = 50%nat
    /\ output_std m = 0.3
    /\ exists rf,
         reinforce r = Some rf
         /\ r_baseline rf
            = Some (BaselineMLP_build (baseline_mlp unit SampleMnist.networks)
                      (Model.obs m) (what m) (where_ m) (presence_prob m))
         /\ r_importance_weight rf
            = Pairwise
                (sub_column (per_sample (loss r))
                   (BaselineMLP_build (baseline_mlp unit SampleMnist.networks)
                      (Model.obs m) (what m) (where_ m) (presence_prob m)))
         /\ r_baseline_loss rf
            = Some (reduce_mean2
                      (map (map Rsqr)
                         (sub_column (per_sample (loss r))
                            (BaselineMLP_build
                               (baseline_mlp unit SampleMnist.networks)
                               (Model.obs m) (what m) (where_ m)
                               (presence_prob m))))).
Proof.
  intro a.
  destruct (AIRModel_init_succeeds unit Sample.blank [[0; 0]] [1%nat; 2%nat] 3
              [1%nat; 1%nat] 50
              (AIRonMNIST_callables SampleMnist.networks (-3) 1) Sample.created
              0.3 true (Some 0) false
              (Some (BaselineMLP_build (baseline_mlp unit SampleMnist.networks)))
              Sample.noise) as [m Hm].
  destruct (train_step_without_prior unit Sample.prior_module m a 0
              SampleGraph.variables eq_refl) as (r & Hstep & _).
  exists m, r. split; [repeat split; assumption |].
  exact (mnist_trains_its_baseline unit Sample.prior_module Sample.blank
           [[0; 0]] [1%nat; 2%nat] [1%nat; 1%nat] SampleMnist.networks
           Sample.created (-3) 1 3 true (Some 0) false Sample.noise m a 0
           SampleGraph.variables r Hm eq_refl eq_refl Hstep).
Defined.

(** ** Soft steps and the glimpses of the model *)




Lemma AIRModel_init_glimpse :
  forall (Hidden : Type) (obs nums : tensor2) (img_size : list nat)
         (max_steps : nat) (glimpse_size : list nat) (n_appearance : nat)
         (f : Callables Hidden) (mk : Created) (output_std : R)
         (discrete_steps : bool) (explore_eps : option R) (debug : bool)
         (self_baseline : option Baseline) (noise : nat -> Noise)
         (m : AIRModel Hidden),
    AIRModel_init obs nums img_size max_steps glimpse_size n_appearance f mk
                  output_std discrete_steps explore_eps debug self_baseline
                  noise = Built m ->
    Model.glimpse m
    = zipWith scale_rows (Model.presence m)
              (map (fun g => map (map sigmoid) g)
                   (map Cell.glimpse
                        (fst (dynamic_rnn (Model.cell m) noise 0
                                (repeat (repeat 0 (length obs)) max_steps)
                                (initial_state (Model.cell m) obs))))).
Proof.
  intros Hidden obs nums img_size max_steps glimpse_size n_appearance f mk
         output_std discrete_steps explore_eps debug self_baseline noise m.
  unfold AIRModel_init.
  destruct (AIRCell_init _ _ _ _ _ _ _ _ _) as [cell |] eqn:Hcell;
    [| discriminate].
  destruct (dynamic_rnn _ _ _ _ _) as [outputs state] eqn:Hrun.
  intros H. injection H as <-. cbn [Model.glimpse Model.presence Model.cell].
  rewrite Hrun. cbn [fst]. rewrite map_map. reflexivity.
Qed.

(** X25: the glimpses the model keeps, the decoded glimpses squashed by a
    sigmoid and gated by presence, have all their entries in [0, 1], for an
    exploration floor of at most 1. *)
Theorem model_glimpses_in_unit_interval :
  forall (Hidden : Type) (obs nums : tensor2) (img_size : list nat)
         (max_steps : nat) (glimpse_size : list nat) (n_appearance : nat)
         (f : Callables Hidden) (mk : Created) (output_std : R)
         (discrete_steps : bool) (explore_eps : option R) (debug : bool)
         (self_baseline : option Baseline) (noise : nat -> Noise)
         (m : AIRModel Hidden),
    floor_at_most_one explore_eps ->
    AIRModel_init obs nums img_size max_steps glimpse_size n_appearance f mk
                  output_std discrete_steps explore_eps debug self_baseline
                  noise = Built m ->
    Forall (Forall (Forall in_unit_interval)) (Model.glimpse m).
Proof.
  intros Hidden obs nums img_size max_steps glimpse_size n_appearance f mk
         output_std discrete_steps explore_eps debug self_baseline noise m
         Hfloor H.
  pose proof (AIRModel_init_glimpse _ _ _ _ _ _ _ _ _ _ _ _ _ _ _ _ H) as Hg.
  apply AIRModel_init_outputs in H.
  destruct H as (cell & outputs & Hcell & Hout & _ & Hp & _).
  assert (Heps : _explore_eps cell = explore_eps).
  { unfold AIRCell_init in Hcell. injection Hcell as <-. reflexivity. }
  assert (Hpresence : Forall (Forall in_unit_interval) (Model.presence m)).
  { rewrite Hp, Forall_map, Hout.
    apply dynamic_rnn_presence.
    - rewrite Heps. exact Hfloor.
    - simpl. apply Forall_forall. intros x Hx.
      apply repeat_spec in Hx. subst x. unfold in_unit_interval. lra. }
  rewrite Hg.
  apply Forall_zipWith. intros ps g Hps Hgl.
  rewrite Forall_forall in Hpresence. specialize (Hpresence ps Hps).
  apply in_map_iff in Hgl. destruct Hgl as (g0 & <- & _).
  unfold scale_rows. apply Forall_zipWith. intros p row Hpin Hrow.
  rewrite Forall_forall in Hpresence. specialize (Hpresence p Hpin).
  apply in_map_iff in Hrow. destruct Hrow as (row0 & <- & _).
  rewrite !Forall_map. apply Forall_forall. intros x _.
  pose proof (sigmoid_in_unit_interval x) as Hs.
  unfold in_unit_interval in *. nra.
Qed.

Lemma model_glimpses_in_unit_interval_witness :
  exists m,
    (floor_at_most_one (Some 0)
     /\ AIRModel_init Sample.blank [[0; 0]] [1%nat; 2%nat] 3 [1%nat; 1%nat] 1
                      Sample.callables Sample.created 1 false (Some 0) false
                      None Sample.noise = Built m)
    /\ Forall (Forall (Forall in_unit_interval)) (Model.glimpse m).
Proof.
  assert (Hfloor : floor_at_most_one (Some 0)) by (simpl; lra).
  destruct (AIRModel_init_succeeds unit Sample.blank [[0; 0]] [1%nat; 2%nat] 3
              [1%nat; 1%nat] 1 Sample.callables Sample.created 1 false (Some 0)
              false None Sample.noise) as [m Hm].
  exists m. split; [split; [exact Hfloor | exact Hm] |].
  exact (model_glimpses_in_unit_interval unit Sample.blank [[0; 0]]
           [1%nat; 2%nat] 3 [1%nat; 1%nat] 1 Sample.callables Sample.created 1
           false (Some 0) false None Sample.noise m Hfloor Hm).
Defined.
